(** * Pixano arrow types: Bbox, Image and ObjectAnnotation

    A shallow embedding of [pixano/core/arrow_types/bbox.py], [image.py]
    and [objectAnnotation.py], followed by the properties of the
    specification that are stated about them.

    Python exceptions are modelled by the result type [Res]; methods that
    assign to attributes of [self] return the receiver after the call. *)

From Stdlib Require Import ZArith QArith Qabs Qround Qpower List String Ascii Bool Lia Lqa.
Import ListNotations.

Set Implicit Arguments.
Set Warnings "-register-all".

Local Open Scope string_scope.
Local Open Scope list_scope.

(** ** Python exceptions and results *)

Inductive PyExn : Type :=
| AttributeError
| TypeError
| ValueError
| KeyError
| ZeroDivisionError
| IndexError
| RecursionError
| OSError
| OverflowError
| ArrowInvalid.

Inductive Res (A : Type) : Type :=
| Ok (a : A)
| Raise (e : PyExn).

Arguments Ok {A} a.
Arguments Raise {A} e.

Definition bind {A B : Type} (m : Res A) (k : A -> Res B) : Res B :=
  match m with
  | Ok a => k a
  | Raise e => Raise e
  end.

Notation "x <- m ;; k" := (bind m (fun x => k))
  (at level 61, m at next level, right associativity).
Notation "' p <- m ;; k" := (bind m (fun x => match x with p => k end))
  (at level 61, p pattern, m at next level, right associativity).

Fixpoint mapM {A B : Type} (f : A -> Res B) (xs : list A) : Res (list B) :=
  match xs with
  | [] => Ok []
  | x :: xs' => y <- f x ;; ys <- mapM f xs' ;; Ok (y :: ys)
  end.

(** ** [pixano.transforms.boxes]

    [bbox.py] imports its coordinate arithmetic from this module, which
    is taken as an interface. *)

Module boxes.

Record impl : Type := {
    xywh_to_xyxy : list Q -> Res (list Q);
    xyxy_to_xywh : list Q -> Res (list Q);
    normalize : list Q -> Z -> Z -> Res (list Q)
  }.

End boxes.

(** ** [bbox.py]: class [Bbox] *)

Module Bbox.

Record t : Type := mk {
    _coords : list Q;
    _format : string;
    _is_normalized : bool
  }.

  (** [Bbox.__init__(xyxy, format, is_normalized=True)]: three plain
      assignments. *)
Definition __init__ (xyxy : list Q) (format : string)
      (is_normalized : option bool) : Res t :=
    Ok (mk xyxy format
          (match is_normalized with Some b => b | None => true end)).

Definition from_xyxy (xyxy : list Q) : Res t := __init__ xyxy "xyxy" None.
Definition from_xywh (xywh : list Q) : Res t := __init__ xywh "xywh" None.

Definition is_normalized (self : t) : bool := _is_normalized self.
Definition format (self : t) : string := _format self.

Section Methods.

Variable B : boxes.impl.

    (** Every method returns its Python result together with the receiver
        as the call leaves it. *)

Definition to_xyxy (self : t) : Res (list Q * t) :=
      if String.eqb (_format self) "xywh" then
        r <- boxes.xywh_to_xyxy B (_coords self) ;; Ok (r, self)
      else Ok (_coords self, self).

Definition to_xywh (self : t) : Res (list Q * t) :=
      if String.eqb (_format self) "xyxy" then
        r <- boxes.xyxy_to_xywh B (_coords self) ;; Ok (r, self)
      else Ok (_coords self, self).

Definition format_xyxy (self : t) : Res (unit * t) :=
      if String.eqb (_format self) "xywh" then
        c <- boxes.xywh_to_xyxy B (_coords self) ;;
        Ok (tt, mk c "xyxy" (_is_normalized self))
      else Ok (tt, self).

Definition format_xywh (self : t) : Res (unit * t) :=
      if String.eqb (_format self) "xyxy" then
        c <- boxes.xyxy_to_xywh B (_coords self) ;;
        Ok (tt, mk c "xywh" (_is_normalized self))
      else Ok (tt, self).

Definition normalize (self : t) (height width : Z) : Res (unit * t) :=
      c <- boxes.normalize B (_coords self) height width ;;
      Ok (tt, mk c (_format self) (_is_normalized self)).

End Methods.

End Bbox.

(** ** Python [float]: IEEE 754 binary64, round to nearest, ties to even

    A float is the rational it denotes.  [round] maps a rational to the
    nearest rational with a 53-bit significand; the exponent range is not
    bounded, so overflow to infinity and gradual underflow are outside
    the model (a sum or difference of two binary64 numbers that falls in
    the subnormal range is exact in both). *)

Module Float64.

Local Open Scope Q_scope.

Definition prec : Z := 53.

  (** [ilog2 q] is the integer [e] with [2^e <= |q| < 2^(e+1)], for
      [q <> 0]. *)
Definition ilog2 (q : Q) : Z :=
    let e := (Z.log2 (Z.abs (Qnum q)) - Z.log2 (Zpos (Qden q)))%Z in
    if Qle_bool (2 ^ e) (Qabs q) then e else (e - 1)%Z.

  (** Nearest integer, ties to the even one. *)
Definition round_half_even (y : Q) : Z :=
    let f := Qfloor y in
    match Qcompare (y - inject_Z f) (1 # 2) with
    | Lt => f
    | Gt => (f + 1)%Z
    | Eq => if Z.even f then f else (f + 1)%Z
    end.

Definition round (q : Q) : Q :=
    if Qeq_bool q 0 then 0
    else
      let e := (ilog2 q - (prec - 1))%Z in
      Qred (inject_Z (round_half_even (q / 2 ^ e)) * 2 ^ e).

Definition add (a b : Q) : Q := round (a + b).
Definition sub (a b : Q) : Q := round (a - b).
Definition div (a b : Q) : Q := round (a / b).

  (** The float written as the decimal literal [q] in source text. *)
Definition lit (q : Q) : Q := round q.

End Float64.

(** ** [pixano.transforms.boxes], as the specification describes it *)

Module boxes_spec.

  (** Modelled from the spec: [xyxy_to_xywh] of [pixano.transforms.boxes]
      is not among the source files.  The spec gives
      [Bbox(xyxy=[0.1,0.2,0.5,0.6]).to_xywh() == [0.1,0.2,0.4,0.4]], so the
      corner is kept and width and height are the float differences; a
      coordinate list whose length is not 4 is a MalformedValue, detected
      at conversion time. *)
Definition xyxy_to_xywh (xyxy : list Q) : Res (list Q) :=
    match xyxy with
    | [x1; y1; x2; y2] => Ok [x1; y1; Float64.sub x2 x1; Float64.sub y2 y1]
    | _ => Raise ValueError
    end.

  (** Modelled from the spec: [xywh_to_xyxy] of [pixano.transforms.boxes]
      is not among the source files.  The spec calls the two conversions
      inverses of each other: the corner is kept and the far corner is the
      float sum of corner and size. *)
Definition xywh_to_xyxy (xywh : list Q) : Res (list Q) :=
    match xywh with
    | [x; y; w; h] => Ok [x; y; Float64.add x w; Float64.add y h]
    | _ => Raise ValueError
    end.

  (** Modelled from the spec: [normalize] of [pixano.transforms.boxes] is
      not among the source files.  The spec says it rescales coordinates
      by dividing by the given dimensions and fails unless both are
      positive; abscissas are divided by the width and ordinates by the
      height. *)
Definition normalize (coords : list Q) (height width : Z) : Res (list Q) :=
    if ((0 <? height) && (0 <? width))%Z then
      match coords with
      | [a; b; c; d] =>
          Ok [Float64.div a (inject_Z width); Float64.div b (inject_Z height);
              Float64.div c (inject_Z width); Float64.div d (inject_Z height)]
      | _ => Raise ValueError
      end
    else Raise ValueError.

Definition impl : boxes.impl :=
    {| boxes.xywh_to_xyxy := xywh_to_xyxy;
       boxes.xyxy_to_xywh := xyxy_to_xywh;
       boxes.normalize := normalize |}.

End boxes_spec.

(** ** [base64.b64encode] *)

Module base64.

Definition alphabet : string :=
    "ABCDEFGHIJKLMNOPQRSTUVWXYZabcdefghijklmnopqrstuvwxyz0123456789+/".

Definition digit (n : N) : ascii :=
    match String.get (N.to_nat n) alphabet with
    | Some c => c
    | None => "="%char
    end.

Fixpoint encode (bs : list N) : string :=
    match bs with
    | [] => EmptyString
    | [a] =>
        String (digit (a / 4))
          (String (digit ((a mod 4) * 16)) "==")
    | [a; b] =>
        String (digit (a / 4))
          (String (digit ((a mod 4) * 16 + b / 16))
             (String (digit ((b mod 16) * 4)) "="))
    | a :: b :: c :: rest =>
        String (digit (a / 4))
          (String (digit ((a mod 4) * 16 + b / 16))
             (String (digit ((b mod 16) * 4 + c / 64))
                (String (digit (c mod 64)) (encode rest))))
    end%N.

  (** [base64.b64encode(s).decode("utf-8")]; [b64encode] raises
      [TypeError] on [None], which is not bytes-like. *)
Definition b64encode_decode (s : option (list Byte.byte)) : Res string :=
    match s with
    | Some bs => Ok (encode (map Byte.to_N bs))
    | None => Raise TypeError
    end.

End base64.

(** ** [image.py]: class [Image] *)

Module Image.

Local Open Scope string_scope.

(** What [uri_prefix] may hold, as [epath.PathLike] has it: a plain
    string, or a path object (of [pathlib] or [epath]), here with its
    text. *)
Inductive PathLike : Type :=
| StrPrefix (s : string)
| PathPrefix (p : string).

Record t : Type := mk {
    _uri : option string;
    _bytes : option (list Byte.byte);
    _preview_bytes : option (list Byte.byte);
    uri_prefix : option PathLike
  }.

Definition __init__ (uri : option string) (bytes preview_bytes : option (list Byte.byte))
      (uri_prefix : option PathLike) : t :=
    mk uri bytes preview_bytes uri_prefix.

  (** What the code finds outside itself: [join p u] is the text of
      [p / u] for a path object [p] and a string [u], as the path library
      computes it, and [read path] is the outcome of
      [open(path, "rb")] followed by [read()], the bytes of the file or
      the exception that either raises. *)
Record FS : Type := mkFS {
    join : string -> string -> string;
    read : string -> Res (list Byte.byte)
  }.

  (** A computation that may open files: its result and the paths it
      called [open] on, in order. *)
Definition IO (A : Type) : Type := FS -> Res A * list string.

Definition io_ret {A : Type} (a : A) : IO A := fun _ => (Ok a, []).

Definition io_bind {A B : Type} (m : IO A) (k : A -> IO B) : IO B :=
    fun fs =>
      match m fs with
      | (Ok a, log) => let (r, log') := k a fs in (r, (log ++ log')%list)
      | (Raise e, log) => (Raise e, log)
      end.

  (** [Image.open], with the [read()] that follows it: the file is read
      here, when asked for.  [uri_prefix / _uri] is defined for a path
      object and a string; a string prefix has no [/], and neither [/] nor
      [open] takes [None]: these raise [TypeError] before any file is
      touched. *)
Definition open (self : t) : IO (list Byte.byte) :=
    fun fs =>
      match uri_prefix self with
      | Some (StrPrefix _) => (Raise TypeError, [])
      | Some (PathPrefix p) =>
          match _uri self with
          | Some u => (read fs (join fs p u), [join fs p u])
          | None => (Raise TypeError, [])
          end
      | None =>
          match _uri self with
          | Some u => (read fs u, [u])
          | None => (Raise TypeError, [])
          end
      end.

  (** Property [Image.bytes]. *)
Definition bytes (self : t) : IO (option (list Byte.byte)) :=
    match _bytes self with
    | Some b => io_ret (Some b)
    | None =>
        match _uri self with
        | Some _ => io_bind (open self) (fun f => io_ret (Some f))
        | None => io_ret None
        end
    end.

  (** Property [Image.preview_url]. *)
Definition preview_url (self : t) : Res string :=
    encoded <- base64.b64encode_decode (_preview_bytes self) ;;
    Ok ("data:image;base64," ++ encoded).

  (** Property [Image.url]. *)
Definition url (self : t) : IO string :=
    io_bind (bytes self) (fun data =>
      match data with
      | Some d =>
          fun _ =>
            (encoded <- base64.b64encode_decode (Some d) ;;
             Ok ("data:image;base64," ++ encoded), [])
      | None => io_ret ""
      end).

End Image.

(** ** Python objects

    Lists, dicts and class instances are mutable and live in a heap;
    a value that denotes one of them is a reference, so that two names
    for one object are two equal references. *)

Module Py.

Definition loc : Type := nat.

Inductive Value : Type :=
  | VNone
  | VBool (b : bool)
  | VInt (z : Z)
  | VFloat (q : Q)
  | VStr (s : string)
  | VBytes (bs : list Byte.byte)
  | VRef (l : loc).

Inductive Class : Type :=
  | BBox
  | Pose
  | CompressedRLE
  | ObjectAnnotation
  | OtherClass (name : string).

  (** A dict with string keys, in insertion order. *)
Definition Dict (A : Type) : Type := list (string * A).

Fixpoint dict_get {A : Type} (d : Dict A) (k : string) : option A :=
    match d with
    | [] => None
    | (k', v) :: d' => if String.eqb k' k then Some v else dict_get d' k
    end.

  (** [d[k] = v]: replaces the value of an existing key where it stands,
      appends a new key. *)
Fixpoint dict_set {A : Type} (d : Dict A) (k : string) (v : A) : Dict A :=
    match d with
    | [] => [(k, v)]
    | (k', v') :: d' =>
        if String.eqb k' k then (k', v) :: d' else (k', v') :: dict_set d' k v
    end.

Definition keys {A : Type} (d : Dict A) : list string := map fst d.

Inductive Object : Type :=
  | OList (items : list Value)
  | ODict (items : Dict Value)
  | OInst (cls : Class) (__dict__ : Dict Value).

Definition Heap : Type := list Object.

Definition alloc (o : Object) (h : Heap) : Value * Heap :=
    (VRef (List.length h), h ++ [o]).

Definition deref (h : Heap) (v : Value) : option Object :=
    match v with
    | VRef l => nth_error h l
    | _ => None
    end.

  (** [v.__dict__] *)
Definition instance_dict (h : Heap) (v : Value) : Res (Dict Value) :=
    match deref h v with
    | Some (OInst _ d) => Ok d
    | _ => Raise AttributeError
    end.

  (** [getattr(v, name)] for a data attribute. *)
Definition getattr (h : Heap) (v : Value) (name : string) : Res Value :=
    d <- instance_dict h v ;;
    match dict_get d name with
    | Some x => Ok x
    | None => Raise AttributeError
    end.

  (** [type(v)] when [v] is an instance of a user class. *)
Definition class_of (h : Heap) (v : Value) : option Class :=
    match deref h v with
    | Some (OInst c _) => Some c
    | _ => None
    end.

Fixpoint list_update {A : Type} (xs : list A) (i : nat) (x : A) : option (list A) :=
    match xs, i with
    | [], _ => None
    | _ :: xs', O => Some (x :: xs')
    | y :: xs', S i' => option_map (cons y) (list_update xs' i' x)
    end.

  (** [v[i] = x] on a list. *)
Definition list_setitem (h : Heap) (v : Value) (i : nat) (x : Value) : Res Heap :=
    match v with
    | VRef l =>
        match nth_error h l with
        | Some (OList items) =>
            match list_update items i x with
            | Some items' =>
                match list_update h l (OList items') with
                | Some h' => Ok h'
                | None => Raise TypeError
                end
            | None => Raise IndexError
            end
        | _ => Raise TypeError
        end
    | _ => Raise TypeError
    end.

  (** [v[i]] on a list. *)
Definition list_getitem (h : Heap) (v : Value) (i : nat) : Res Value :=
    match deref h v with
    | Some (OList items) =>
        match nth_error items i with
        | Some x => Ok x
        | None => Raise IndexError
        end
    | _ => Raise TypeError
    end.

End Py.

(** ** The part of [pyarrow] that the arrow types use

    An Arrow array is immutable data: a list of cells, with the extension
    type it was built for when one was given.  [pa.array] copies Python
    values into cells, following references, and gives the column one
    type.  Of that type inference the model has the range of the
    integers, the refusal of a column that mixes numbers, text, lists and
    structs, and the conversion of the integers of a column of floats.
    It accepts as they are the columns on which the inference decides
    within one of these classes (booleans among numbers, strings among
    bytes, the element types of lists and structs), and it does not check
    the values of a typed array against the storage of the type. *)

Module pa.

Import Py.

Inductive Cell : Type :=
  | CNull
  | CBool (b : bool)
  | CInt (z : Z)
  | CFloat (q : Q)
  | CStr (s : string)
  | CBytes (bs : list Byte.byte)
  | CList (items : list Cell)
  | CStruct (fields : Dict Cell).

Inductive ExtType : Type :=
  | BBoxType
  | PoseType
  | CompressedRLEType
  | ObjectAnnotationType.

Record Array : Type := mkArray {
    type : option ExtType;
    cells : list Cell
  }.

Definition is_null (c : Cell) : bool :=
    match c with
    | CNull => true
    | _ => false
    end.

  (** The cell of one Python value.  An integer must be in the range of
      [int64].  The recursion follows references through the heap and is
      bounded by [fuel]; an instance of a class is not a value that
      [pyarrow] converts. *)
Fixpoint to_cell_fuel (fuel : nat) (h : Heap) (v : Value) : Res Cell :=
    match v with
    | VNone => Ok CNull
    | VBool b => Ok (CBool b)
    | VInt z =>
        if ((- 2 ^ 63 <=? z) && (z <? 2 ^ 63))%Z then Ok (CInt z) else Raise OverflowError
    | VFloat q => Ok (CFloat q)
    | VStr s => Ok (CStr s)
    | VBytes bs => Ok (CBytes bs)
    | VRef l =>
        match fuel with
        | O => Raise RecursionError
        | S fuel' =>
            match nth_error h l with
            | Some (OList items) =>
                cs <- mapM (to_cell_fuel fuel' h) items ;; Ok (CList cs)
            | Some (ODict items) =>
                fs <- mapM (fun kv => c <- to_cell_fuel fuel' h (snd kv) ;; Ok (fst kv, c))
                        items ;;
                Ok (CStruct fs)
            | Some (OInst _ _) => Raise ArrowInvalid
            | None => Raise ArrowInvalid
            end
        end
    end.

  (** A chain of references that visits no object twice is no longer than
      the heap. *)
Definition to_cell (h : Heap) (v : Value) : Res Cell :=
    to_cell_fuel (S (List.length h)) h v.

  (** The result of a [to_dict] call: a dict built for the occasion, whose
      values are Python values or dicts built the same way. *)
Inductive Plain : Type :=
  | PVal (v : Value)
  | PDict (items : Dict Plain).

Fixpoint plain_to_cell (h : Heap) (p : Plain) : Res Cell :=
    match p with
    | PVal v => to_cell h v
    | PDict items =>
        fs <- (fix fields (kvs : Dict Plain) : Res (Dict Cell) :=
                 match kvs with
                 | [] => Ok []
                 | (k, p') :: kvs' =>
                     c <- plain_to_cell h p' ;;
                     cs <- fields kvs' ;;
                     Ok ((k, c) :: cs)
                 end) items ;;
        Ok (CStruct fs)
    end.

  (** The classes of cells that no column mixes; null goes with each. *)
Inductive CellClass : Type := Number | Text | Sequence | Structure.

Definition cell_class (c : Cell) : option CellClass :=
    match c with
    | CNull => None
    | CBool _ | CInt _ | CFloat _ => Some Number
    | CStr _ | CBytes _ => Some Text
    | CList _ => Some Sequence
    | CStruct _ => Some Structure
    end.

Definition CellClass_eqb (a b : CellClass) : bool :=
    match a, b with
    | Number, Number | Text, Text | Sequence, Sequence | Structure, Structure => true
    | _, _ => false
    end.

Definition compatible (c d : Cell) : bool :=
    match cell_class c, cell_class d with
    | Some a, Some b => CellClass_eqb a b
    | _, _ => true
    end.

Definition is_float (c : Cell) : bool :=
    match c with
    | CFloat _ => true
    | _ => false
    end.

  (** An integer in a column of floats becomes the float of the same
      value, which must be one that [float64] holds exactly. *)
Definition to_double (c : Cell) : Res Cell :=
    match c with
    | CInt z =>
        if (Z.abs z <=? 2 ^ 53)%Z then Ok (CFloat (inject_Z z)) else Raise ArrowInvalid
    | _ => Ok c
    end.

  (** The cells of a column of the type that is inferred for them. *)
Definition infer (cs : list Cell) : Res (list Cell) :=
    if forallb (fun c => forallb (compatible c) cs) cs
    then if existsb is_float cs then mapM to_double cs else Ok cs
    else Raise ArrowInvalid.

  (** [pa.array(values)] on a Python list. *)
Definition array (h : Heap) (values : list Value) : Res Array :=
    cs <- mapM (to_cell h) values ;;
    cs' <- infer cs ;;
    Ok (mkArray None cs').

  (** [pa.array(dicts, type=t)] on the dicts that [to_dict] returned: the
      array is of type [t]; the dicts are not checked against the storage
      of [t]. *)
Definition array_typed (h : Heap) (dicts : list Plain) (t : ExtType) : Res Array :=
    cs <- mapM (plain_to_cell h) dicts ;; Ok (mkArray (Some t) cs).

  (** [pa.array(arr)] on what is an array already. *)
Definition array_of_array (arr : Array) : Res Array := Ok arr.

  (** [scalar.as_py()] of [pyarrow]'s own scalars: null is [None], a list
      cell a new list, a struct cell a new dict. *)
Fixpoint as_py (c : Cell) (h : Heap) : Value * Heap :=
    match c with
    | CNull => (VNone, h)
    | CBool b => (VBool b, h)
    | CInt z => (VInt z, h)
    | CFloat q => (VFloat q, h)
    | CStr s => (VStr s, h)
    | CBytes bs => (VBytes bs, h)
    | CList items =>
        let (vs, h') :=
          (fix elems (cs : list Cell) (h0 : Heap) : list Value * Heap :=
             match cs with
             | [] => ([], h0)
             | c' :: cs' =>
                 let (v, h1) := as_py c' h0 in
                 let (vs, h2) := elems cs' h1 in
                 (v :: vs, h2)
             end) items h in
        alloc (OList vs) h'
    | CStruct fields =>
        let (kvs, h') :=
          (fix elems (fs : Dict Cell) (h0 : Heap) : Dict Value * Heap :=
             match fs with
             | [] => ([], h0)
             | (k, c') :: fs' =>
                 let (v, h1) := as_py c' h0 in
                 let (kvs, h2) := elems fs' h1 in
                 ((k, v) :: kvs, h2)
             end) fields h in
        alloc (ODict kvs) h'
    end.

  (** [pa.StructArray.from_arrays(arrays, names=names)]: row [i] is the
      struct of the [i]-th cells; the arrays must have one length. *)
Definition row (columns : Dict Array) (i : nat) : Cell :=
    CStruct (map (fun kv => (fst kv, nth i (cells (snd kv)) CNull)) columns).

Definition StructArray_from_arrays (columns : Dict Array) : Res (list Cell) :=
    match columns with
    | [] => Ok []
    | (_, a) :: rest =>
        let n := List.length (cells a) in
        if forallb (fun kv => Nat.eqb (List.length (cells (snd kv))) n) rest
        then Ok (map (row columns) (seq 0 n))
        else Raise ArrowInvalid
    end.

End pa.

(** ** [objectAnnotation.py] *)

Module ObjectAnnotation.

Import Py.

  (** The default values of [__init__]'s parameters.  Python evaluates
      them once, when the [def] statement runs, and keeps them in the
      function object. *)
Record Defaults : Type := mkDefaults {
    default_bbox : Value;
    default_pose : Value
  }.

  (** Running the [def __init__] statement: [[0] * 4] for [bbox], and the
      dict of [[0] * 9] and [[0] * 3] for [pose]. *)
Definition def__init__ (h : Heap) : Defaults * Heap :=
    let (bbox, h1) := alloc (OList (repeat (VInt 0) 4)) h in
    let (cam_R, h2) := alloc (OList (repeat (VInt 0) 9)) h1 in
    let (cam_t, h3) := alloc (OList (repeat (VInt 0) 3)) h2 in
    let (pose, h4) := alloc (ODict [("cam_R_m2c", cam_R); ("cam_t_m2c", cam_t)]) h3 in
    (mkDefaults bbox pose, h4).

  (** The arguments of a call; [None] is an argument left out. *)
Record Args : Type := mkArgs {
    id : Value;
    view_id : option Value;
    bbox : option Value;
    bbox_source : option Value;
    bbox_confidence : option Value;
    is_group_of : option Value;
    is_difficult : option Value;
    is_truncated : option Value;
    mask : option Value;
    mask_source : option Value;
    area : option Value;
    pose : option Value;
    category_id : option Value;
    category_name : option Value;
    identity : option Value
  }.

Definition arg (default : Value) (a : option Value) : Value :=
    match a with
    | Some v => v
    | None => default
    end.

  (** [ObjectAnnotation.__init__]: the [__dict__] that the fifteen
      assignments leave in the new instance. *)
Definition __init__ (D : Defaults) (a : Args) : Dict Value :=
    [ ("id", id a);
      ("view_id", arg VNone (view_id a));
      ("bbox", arg (default_bbox D) (bbox a));
      ("bbox_source", arg VNone (bbox_source a));
      ("bbox_confidence", arg VNone (bbox_confidence a));
      ("is_group_of", arg VNone (is_group_of a));
      ("is_difficult", arg VNone (is_difficult a));
      ("is_truncated", arg VNone (is_truncated a));
      ("mask", arg VNone (mask a));
      ("mask_source", arg VNone (mask_source a));
      ("area", arg VNone (area a));
      ("pose", arg (default_pose D) (pose a));
      ("category_id", arg VNone (category_id a));
      ("category_name", arg VNone (category_name a));
      ("identity", arg VNone (identity a)) ].

  (** The call [ObjectAnnotation(...)]. *)
Definition new (D : Defaults) (a : Args) (h : Heap) : Value * Heap :=
    alloc (OInst ObjectAnnotation (__init__ D a)) h.

  (** A call that passes [id] alone. *)
Definition only_id (i : Value) : Args :=
    mkArgs i None None None None None None None None None None None None None None.

Definition attr (d : Dict Value) (name : string) : Res Value :=
    match dict_get d name with
    | Some v => Ok v
    | None => Raise AttributeError
    end.

  (** Modelled from the spec: the [to_dict] of [BBox], [Pose] and
      [CompressedRLE] is not among the source files.  The plain-structure
      export mirrors the layout field for field: it returns the fields of
      the instance as a new dict. *)
Definition leaf_to_dict (d : Dict Value) : pa.Plain :=
    pa.PDict (map (fun kv => (fst kv, pa.PVal (snd kv))) d).

  (** [value.to_dict()].  For an [ObjectAnnotation] this is the method of
      the source file, which calls [to_dict] on its [bbox], [mask] and
      [pose]; a value without the method raises [AttributeError]. *)
Fixpoint to_dict_fuel (fuel : nat) (h : Heap) (v : Value) : Res pa.Plain :=
    match fuel with
    | O => Raise RecursionError
    | S fuel' =>
        match deref h v with
        | Some (OInst ObjectAnnotation d) =>
            v_id <- attr d "id" ;;
            v_view_id <- attr d "view_id" ;;
            o_bbox <- attr d "bbox" ;;
            v_bbox <- to_dict_fuel fuel' h o_bbox ;;
            v_bbox_source <- attr d "bbox_source" ;;
            v_bbox_confidence <- attr d "bbox_confidence" ;;
            v_is_group_of <- attr d "is_group_of" ;;
            v_is_difficult <- attr d "is_difficult" ;;
            v_is_truncated <- attr d "is_truncated" ;;
            o_mask <- attr d "mask" ;;
            v_mask <- to_dict_fuel fuel' h o_mask ;;
            v_mask_source <- attr d "mask_source" ;;
            v_area <- attr d "area" ;;
            o_pose <- attr d "pose" ;;
            v_pose <- to_dict_fuel fuel' h o_pose ;;
            v_category_id <- attr d "category_id" ;;
            v_category_name <- attr d "category_name" ;;
            v_identity <- attr d "identity" ;;
            Ok (pa.PDict
                  [ ("id", pa.PVal v_id);
                    ("view_id", pa.PVal v_view_id);
                    ("bbox", v_bbox);
                    ("bbox_source", pa.PVal v_bbox_source);
                    ("bbox_confidence", pa.PVal v_bbox_confidence);
                    ("is_group_of", pa.PVal v_is_group_of);
                    ("is_difficult", pa.PVal v_is_difficult);
                    ("is_truncated", pa.PVal v_is_truncated);
                    ("mask", v_mask);
                    ("mask_source", pa.PVal v_mask_source);
                    ("area", pa.PVal v_area);
                    ("pose", v_pose);
                    ("category_id", pa.PVal v_category_id);
                    ("category_name", pa.PVal v_category_name);
                    ("identity", pa.PVal v_identity) ])
        | Some (OInst BBox d) | Some (OInst Pose d) | Some (OInst CompressedRLE d) =>
            Ok (leaf_to_dict d)
        | _ => Raise AttributeError
        end
    end.

Definition to_dict (h : Heap) (v : Value) : Res pa.Plain :=
    to_dict_fuel (S (List.length h)) h v.

  (** [type_mapping], and the [isinstance] test against its keys. *)
Definition type_mapping (c : Class) : option pa.ExtType :=
    match c with
    | BBox => Some pa.BBoxType
    | Pose => Some pa.PoseType
    | CompressedRLE => Some pa.CompressedRLEType
    | ObjectAnnotation => Some pa.ObjectAnnotationType
    | OtherClass _ => None
    end.

Definition mapped_type (h : Heap) (v : Value) : option pa.ExtType :=
    match class_of h v with
    | Some c => type_mapping c
    | None => None
    end.

  (** The body of the loop of [from_list_to_dict] for one attribute: the
      array that is stored under [attr]. *)
Definition column (h : Heap) (annotation_list : list Value) (attr : string)
      : Res pa.Array :=
    attr_values <- mapM (fun annotation => getattr h annotation attr) annotation_list ;;
    match attr_values with
    | [] => Raise IndexError
    | first :: _ =>
        match mapped_type h first with
        | Some attr_type =>
            dicts <- mapM (to_dict h) attr_values ;;
            arr <- pa.array_typed h dicts attr_type ;;
            pa.array_of_array arr
        | None => pa.array h attr_values
        end
    end.

Fixpoint columns (h : Heap) (annotation_list : list Value) (attributes : list string)
      (result_dict : Dict pa.Array) : Res (Dict pa.Array) :=
    match attributes with
    | [] => Ok result_dict
    | attr :: rest =>
        arr <- column h annotation_list attr ;;
        columns h annotation_list rest (dict_set result_dict attr arr)
    end.

  (** [ObjectAnnotationArray.from_list_to_dict] *)
Definition from_list_to_dict (h : Heap) (annotation_list : list Value)
      : Res (Dict pa.Array) :=
    match annotation_list with
    | [] => Ok []
    | first :: _ =>
        d <- instance_dict h first ;;
        columns h annotation_list (keys d) []
    end.

  (** [ObjectAnnotationArray.from_list] *)
Definition from_list (h : Heap) (annotation_list : list Value) : Res (list pa.Cell) :=
    attributes_dict <- from_list_to_dict h annotation_list ;;
    pa.StructArray_from_arrays attributes_dict.

  (** What [__arrow_ext_scalar_class__] of an extension type returns: a
      subclass of [pa.ExtensionScalar], or a class that is none. *)
Inductive ScalarClass : Type :=
  | ExtensionScalar
  | NotAScalar (c : Class).

  (** Modelled from the spec: [pose.py] and [compressedRLE.py] are not
      among the source files; [PoseType] and [CompressedRLEType] are taken
      to name a scalar class, as [ObjectAnnotationType] does (line 146,
      [ObjectAnnotationTypeScalar]).  [BBoxType] is in [bbox.py]: its
      method (lines 117-118) returns [Bbox], the class of the boxes
      themselves. *)
Definition __arrow_ext_scalar_class__ (t : pa.ExtType) : ScalarClass :=
    match t with
    | pa.BBoxType => NotAScalar BBox
    | pa.PoseType => ExtensionScalar
    | pa.CompressedRLEType => ExtensionScalar
    | pa.ObjectAnnotationType => ExtensionScalar
    end.

  (** Modelled from the spec: the [as_py] of the scalars of [PoseType] and
      [CompressedRLEType], which are not among the source files.  A
      nullable field decodes to the absent marker when its cell is null,
      and otherwise as the scalars of [pyarrow] do. *)
Definition scalar_as_py (c : pa.Cell) (h : Heap) : Value * Heap := pa.as_py c h.

  (** The fields of [ObjectAnnotationType] whose type is an extension
      type (lines 121, 127 and 130); the others are of [pyarrow]'s own
      types. *)
Definition field_type (name : string) : option pa.ExtType :=
    if String.eqb name "bbox" then Some pa.BBoxType
    else if String.eqb name "mask" then Some pa.CompressedRLEType
    else if String.eqb name "pose" then Some pa.PoseType
    else None.

  (** [self.value[name]] on the struct that a scalar holds; the value of a
      null scalar is [None], which has no fields.  For a field of an
      extension type [pyarrow] makes the scalar, null or not, as an
      instance of the class that the type names, and raises [TypeError]
      when that class is no scalar class. *)
Definition getitem (value : pa.Cell) (name : string) : Res pa.Cell :=
    match value with
    | pa.CStruct fields =>
        match dict_get fields name with
        | Some c =>
            match field_type name with
            | Some t =>
                match __arrow_ext_scalar_class__ t with
                | ExtensionScalar => Ok c
                | NotAScalar _ => Raise TypeError
                end
            | None => Ok c
            end
        | None => Raise KeyError
        end
    | _ => Raise TypeError
    end.

  (** [self.value[name].as_py()] *)
Definition field_as_py (value : pa.Cell) (name : string) (h : Heap)
      : Res (Value * Heap) :=
    c <- getitem value name ;;
    match field_type name with
    | Some _ => Ok (scalar_as_py c h)
    | None => Ok (pa.as_py c h)
    end.

  (** [ObjectAnnotationTypeScalar.as_py]: the fifteen fields are decoded
      in order and all passed to the constructor. *)
Definition as_py (D : Defaults) (value : pa.Cell) (h : Heap) : Res (Value * Heap) :=
    '(v_id, h) <- field_as_py value "id" h ;;
    '(v_view_id, h) <- field_as_py value "view_id" h ;;
    '(v_bbox, h) <- field_as_py value "bbox" h ;;
    '(v_bbox_source, h) <- field_as_py value "bbox_source" h ;;
    '(v_bbox_confidence, h) <- field_as_py value "bbox_confidence" h ;;
    '(v_is_group_of, h) <- field_as_py value "is_group_of" h ;;
    '(v_is_difficult, h) <- field_as_py value "is_difficult" h ;;
    '(v_is_truncated, h) <- field_as_py value "is_truncated" h ;;
    '(v_mask, h) <- field_as_py value "mask" h ;;
    '(v_mask_source, h) <- field_as_py value "mask_source" h ;;
    '(v_area, h) <- field_as_py value "area" h ;;
    '(v_pose, h) <- field_as_py value "pose" h ;;
    '(v_category_id, h) <- field_as_py value "category_id" h ;;
    '(v_category_name, h) <- field_as_py value "category_name" h ;;
    '(v_identity, h) <- field_as_py value "identity" h ;;
    Ok (new D
          (mkArgs v_id (Some v_view_id) (Some v_bbox) (Some v_bbox_source)
             (Some v_bbox_confidence) (Some v_is_group_of) (Some v_is_difficult)
             (Some v_is_truncated) (Some v_mask) (Some v_mask_source) (Some v_area)
             (Some v_pose) (Some v_category_id) (Some v_category_name)
             (Some v_identity))
          h).

End ObjectAnnotation.

(** ** [image.py]: the Arrow side of [Image] *)

Module ImageArrow.

Import Py.

Definition str_or_None (o : option string) : Value :=
  match o with
  | Some s => VStr s
  | None => VNone
  end.

Definition bytes_or_None (o : option (list Byte.byte)) : Value :=
  match o with
  | Some b => VBytes b
  | None => VNone
  end.

(** [Image.to_dict]: the three stored attributes; [uri_prefix] is not
    among them. *)
Definition to_dict (self : Image.t) : Dict Value :=
  [ ("uri", str_or_None (Image._uri self));
    ("bytes", bytes_or_None (Image._bytes self));
    ("preview_bytes", bytes_or_None (Image._preview_bytes self)) ].

(** [ImageArray.from_Image_list]: the cells of
    [pa.array(image_dicts, ImageType())].  The dicts hold no reference, so
    the heap that [pa.array] would follow is of no account. *)
Definition from_Image_list (image_list : list Image.t) : Res (list pa.Cell) :=
  let image_dicts := map to_dict image_list in
  mapM (fun d => pa.plain_to_cell []
                   (pa.PDict (map (fun kv => (fst kv, pa.PVal (snd kv))) d)))
       image_dicts.

(** [self.value[name].as_py()] for a field of type [utf8]: a string or
    [None]; a cell of another kind is not one of the layout. *)
Definition utf8_as_py (value : pa.Cell) (name : string) : Res (option string) :=
  match value with
  | pa.CStruct fields =>
      match dict_get fields name with
      | Some pa.CNull => Ok None
      | Some (pa.CStr s) => Ok (Some s)
      | Some _ => Raise TypeError
      | None => Raise KeyError
      end
  | _ => Raise TypeError
  end.

(** The same for a field of type [binary]. *)
Definition binary_as_py (value : pa.Cell) (name : string)
    : Res (option (list Byte.byte)) :=
  match value with
  | pa.CStruct fields =>
      match dict_get fields name with
      | Some pa.CNull => Ok None
      | Some (pa.CBytes b) => Ok (Some b)
      | Some _ => Raise TypeError
      | None => Raise KeyError
      end
  | _ => Raise TypeError
  end.

(** [ImageScalar.as_py]: three fields are passed to the constructor and
    [uri_prefix] is left to its default, [None]. *)
Definition as_py (value : pa.Cell) : Res Image.t :=
  uri <- utf8_as_py value "uri" ;;
  bytes <- binary_as_py value "bytes" ;;
  preview_bytes <- binary_as_py value "preview_bytes" ;;
  Ok (Image.__init__ uri bytes preview_bytes None).

End ImageArrow.

(** * Vocabulary of the properties *)

(** The field names of [ObjectAnnotationType], in layout order. *)
Definition field_names : list string :=
  [ "id"; "view_id"; "bbox"; "bbox_source"; "bbox_confidence"; "is_group_of";
    "is_difficult"; "is_truncated"; "mask"; "mask_source"; "area"; "pose";
    "category_id"; "category_name"; "identity" ].

(** A row of the layout: a struct cell with a cell for every field. *)
Definition has_layout (fields : Py.Dict pa.Cell) : Prop :=
  forall name, In name field_names -> Py.dict_get fields name <> None.

(** The call [ObjectAnnotation(id, bbox=None, mask=None)]. *)
Definition without_bbox_and_mask (id : string) : ObjectAnnotation.Args :=
  ObjectAnnotation.mkArgs (Py.VStr id) None (Some Py.VNone) None None None None None
    (Some Py.VNone) None None None None None None.

(** What [column] needs of one value: with a registered type for the
    column the value must export with [to_dict] and the export convert,
    otherwise the value itself must convert. *)
Definition column_value_ok (h : Py.Heap) (t : option pa.ExtType) (v : Py.Value) : bool :=
  match t with
  | Some _ =>
      match ObjectAnnotation.to_dict h v with
      | Ok p => match pa.plain_to_cell h p with Ok _ => true | Raise _ => false end
      | Raise _ => false
      end
  | None => match pa.to_cell h v with Ok _ => true | Raise _ => false end
  end.

(** A heap with a BBox at location 5 and three annotations: [a] and [c]
    hold the BBox, [b] was built with [bbox=None]. *)
Definition example_heap : Py.Heap :=
  let D := fst (ObjectAnnotation.def__init__ []) in
  let h0 := snd (ObjectAnnotation.def__init__ []) in
  let (coords, h1) :=
    Py.alloc (Py.OList [Py.VInt 0; Py.VInt 0; Py.VInt 1; Py.VInt 1]) h0 in
  let (box, h2) :=
    Py.alloc (Py.OInst Py.BBox
                [("coords", coords); ("is_normalized", Py.VBool false);
                 ("format", Py.VStr "xyxy")]) h1 in
  let with_box id :=
    ObjectAnnotation.mkArgs (Py.VStr id) None (Some box) None None None None None
      None None None None None None None in
  let (_, h3) := ObjectAnnotation.new D (with_box "a") h2 in
  let (_, h4) := ObjectAnnotation.new D (without_bbox_and_mask "b") h3 in
  let (_, h5) := ObjectAnnotation.new D (with_box "c") h4 in
  h5.

(** The unit roundoff of binary64. *)
Definition unit_roundoff : Q := 1 # 9007199254740992.

(** Coordinates up to [2^31] in magnitude, and the tolerance of the
    specification. *)
Definition coordinate_bound : Q := 2147483648.
Definition epsilon : Q := 1 # 1000000.

(** [xyxy -> xywh -> xyxy]: [to_xywh] on a box built with [from_xyxy], then
    [to_xyxy] on the box built from the result with [from_xywh]. *)
Definition round_trip (B : boxes.impl) (xyxy : list Q) : Res (list Q) :=
  b <- Bbox.from_xyxy xyxy ;;
  '(xywh, _) <- Bbox.to_xywh B b ;;
  b' <- Bbox.from_xywh xywh ;;
  '(back, _) <- Bbox.to_xyxy B b' ;;
  Ok back.

Definition within (eps : Q) (a b : list Q) : Prop :=
  Forall2 (fun x y => Qabs (x - y) <= eps) a b.

(** A value that is no reference: [None], a bool, a number, a string or
    bytes. *)
Definition is_scalar (v : Py.Value) : bool :=
  match v with
  | Py.VRef _ => false
  | _ => true
  end.

(** The cell that [pa.array] makes of a scalar. *)
Definition scalar_cell (v : Py.Value) : pa.Cell :=
  match v with
  | Py.VNone => pa.CNull
  | Py.VBool b => pa.CBool b
  | Py.VInt z => pa.CInt z
  | Py.VFloat q => pa.CFloat q
  | Py.VStr s => pa.CStr s
  | Py.VBytes bs => pa.CBytes bs
  | Py.VRef _ => pa.CNull
  end.

(** The value of an attribute that is there. *)
Definition value_of (h : Py.Heap) (a : Py.Value) (name : string) : Py.Value :=
  match Py.getattr h a name with
  | Ok v => v
  | Raise _ => Py.VNone
  end.

(** An annotation as the constructor leaves it, with scalars in every
    attribute. *)
Definition scalar_annotation (h : Py.Heap) (a : Py.Value) : Prop :=
  exists d,
    Py.instance_dict h a = Ok d
    /\ Py.keys d = field_names
    /\ forall name v, Py.dict_get d name = Some v -> is_scalar v = true.

(** What an image is after a passage through an array of [ImageType]. *)
Definition without_prefix (i : Image.t) : Image.t :=
  Image.mk (Image._uri i) (Image._bytes i) (Image._preview_bytes i) None.

(** The struct cell of an image in an array of [ImageType]. *)
Definition image_cell (i : Image.t) : pa.Cell :=
  pa.CStruct
    [ ("uri", scalar_cell (ImageArrow.str_or_None (Image._uri i)));
      ("bytes", scalar_cell (ImageArrow.bytes_or_None (Image._bytes i)));
      ("preview_bytes",
       scalar_cell (ImageArrow.bytes_or_None (Image._preview_bytes i))) ].

(** The kind of a scalar for the type inference of [pa.array]; [None] has
    none and goes with every kind. *)
Inductive Kind : Type := KBool | KInt | KFloat | KStr | KBytes.

Definition kind_of (v : Py.Value) : option Kind :=
  match v with
  | Py.VBool _ => Some KBool
  | Py.VInt _ => Some KInt
  | Py.VFloat _ => Some KFloat
  | Py.VStr _ => Some KStr
  | Py.VBytes _ => Some KBytes
  | Py.VNone | Py.VRef _ => None
  end.

Definition Kind_eqb (j k : Kind) : bool :=
  match j, k with
  | KBool, KBool | KInt, KInt | KFloat, KFloat | KStr, KStr | KBytes, KBytes => true
  | _, _ => false
  end.

Definition same_kind (v w : Py.Value) : bool :=
  match kind_of v, kind_of w with
  | Some j, Some k => Kind_eqb j k
  | _, _ => true
  end.

(** An integer must be in the range of [int64]. *)
Definition in_int64 (v : Py.Value) : bool :=
  match v with
  | Py.VInt z => ((- 2 ^ 63 <=? z) && (z <? 2 ^ 63))%Z
  | _ => true
  end.

(** Values that [pa.array] infers one type for: those that are not [None]
    are all of one kind, and the integers are in range. *)
Definition one_kind (vs : list Py.Value) : bool :=
  forallb in_int64 vs && forallb (fun v => forallb (same_kind v) vs) vs.

(** The column and the row that scalar attributes are encoded into. *)
Definition scalar_column (h : Py.Heap) (l : list Py.Value) (attr : string) : pa.Array :=
  pa.mkArray None (map (fun a => scalar_cell (value_of h a attr)) l).

Definition scalar_row (h : Py.Heap) (a : Py.Value) : pa.Cell :=
  pa.CStruct (map (fun name => (name, scalar_cell (value_of h a name))) field_names).

(** The attributes on which [ObjectAnnotation.to_dict] calls [to_dict]. *)
Definition nested_fields : list string := ["bbox"; "mask"; "pose"].

Definition is_leaf_object (h : Py.Heap) (v : Py.Value) : Prop :=
  Py.class_of h v = Some Py.BBox \/ Py.class_of h v = Some Py.Pose
  \/ Py.class_of h v = Some Py.CompressedRLE.

(** A call of the constructor with a scalar for every parameter. *)
Definition scalar_args (id : string) (category : Z) : ObjectAnnotation.Args :=
  ObjectAnnotation.mkArgs (Py.VStr id) (Some (Py.VStr "image")) (Some Py.VNone)
    (Some (Py.VStr "gt")) (Some (Py.VFloat 1)) (Some (Py.VBool false))
    (Some (Py.VBool false)) (Some (Py.VBool true)) (Some Py.VNone) (Some Py.VNone)
    (Some (Py.VFloat (1 # 2))) (Some Py.VNone) (Some (Py.VInt category))
    (Some (Py.VStr "cat")) (Some Py.VNone).

(** Two annotations of scalars, at locations 4 and 5. *)
Definition scalar_heap : Py.Heap :=
  let D := fst (ObjectAnnotation.def__init__ []) in
  let h0 := snd (ObjectAnnotation.def__init__ []) in
  let (_, h1) := ObjectAnnotation.new D (scalar_args "a" 1) h0 in
  let (_, h2) := ObjectAnnotation.new D (scalar_args "b" 2) h1 in
  h2.

(** A BBox, a CompressedRLE and a Pose at locations 4 to 6 and, at 7, an
    annotation that holds them. *)
Definition export_heap : Py.Heap :=
  let D := fst (ObjectAnnotation.def__init__ []) in
  let h0 := snd (ObjectAnnotation.def__init__ []) in
  let (box, h1) := Py.alloc (Py.OInst Py.BBox [("format", Py.VStr "xyxy")]) h0 in
  let (rle, h2) := Py.alloc (Py.OInst Py.CompressedRLE [("counts", Py.VBytes [])]) h1 in
  let (pose, h3) := Py.alloc (Py.OInst Py.Pose [("cam_R_m2c", Py.VNone)]) h2 in
  let (_, h4) :=
    ObjectAnnotation.new D
      (ObjectAnnotation.mkArgs (Py.VStr "a") None (Some box) None None None None None
         (Some rle) None None (Some pose) None None None) h3 in
  h4.

(** * Properties *)

(** ** Bbox: construction and format conversion *)

Section BboxProperties.

Variable B : boxes.impl.

Lemma format_xyxy_result (b : Bbox.t) (r : unit * Bbox.t) :
    Bbox.format_xyxy B b = Ok r ->
    String.eqb (Bbox._format (snd r)) "xywh" = false.
  Proof.
    unfold Bbox.format_xyxy.
    destruct (String.eqb (Bbox._format b) "xywh") eqn:E.
    - destruct (boxes.xywh_to_xyxy B (Bbox._coords b)); simpl; intros H;
        inversion H; reflexivity.
    - intros H; inversion H; subst; exact E.
  Qed.

Lemma format_xywh_result (b : Bbox.t) (r : unit * Bbox.t) :
    Bbox.format_xywh B b = Ok r ->
    String.eqb (Bbox._format (snd r)) "xyxy" = false.
  Proof.
    unfold Bbox.format_xywh.
    destruct (String.eqb (Bbox._format b) "xyxy") eqn:E.
    - destruct (boxes.xyxy_to_xywh B (Bbox._coords b)); simpl; intros H;
        inversion H; reflexivity.
    - intros H; inversion H; subst; exact E.
  Qed.

Lemma format_xyxy_other (b : Bbox.t) :
    String.eqb (Bbox._format b) "xywh" = false ->
    Bbox.format_xyxy B b = Ok (tt, b).
  Proof. unfold Bbox.format_xyxy; intros ->; reflexivity. Qed.

Lemma format_xywh_other (b : Bbox.t) :
    String.eqb (Bbox._format b) "xyxy" = false ->
    Bbox.format_xywh B b = Ok (tt, b).
  Proof. unfold Bbox.format_xywh; intros ->; reflexivity. Qed.

  (** C7. Same-format conversion is idempotent: [format_xyxy] applied
      twice is [format_xyxy] applied once, in the receiver it leaves and
      in whether it raises, and likewise [format_xywh]; converting a Bbox
      to the format it already has leaves coordinates, format and flag as
      they are. *)
Theorem format_conversion_idempotent (b : Bbox.t) (c : list Q) (n : bool) :
    (r <- Bbox.format_xyxy B b ;; Bbox.format_xyxy B (snd r)) = Bbox.format_xyxy B b
    /\ (r <- Bbox.format_xywh B b ;; Bbox.format_xywh B (snd r)) = Bbox.format_xywh B b
    /\ Bbox.format_xyxy B (Bbox.mk c "xyxy" n) = Ok (tt, Bbox.mk c "xyxy" n)
    /\ Bbox.format_xywh B (Bbox.mk c "xywh" n) = Ok (tt, Bbox.mk c "xywh" n).
  Proof.
    repeat split.
    - destruct (Bbox.format_xyxy B b) as [[[] b']|e] eqn:E; [|reflexivity].
      simpl. apply format_xyxy_other. exact (format_xyxy_result b E).
    - destruct (Bbox.format_xywh B b) as [[[] b']|e] eqn:E; [|reflexivity].
      simpl. apply format_xywh_other. exact (format_xywh_result b E).
  Qed.

  (** C8, as the code has it.  [to_xyxy] and [to_xywh] leave the receiver
      as it was.  [format_xyxy], [format_xywh] and [normalize] return
      nothing and assign to the receiver: none of them touches the
      normalized flag; [format_xyxy] leaves a receiver whose format is not
      xywh unchanged and otherwise stores the converted coordinates and
      the tag xyxy; [format_xywh] is symmetric; [normalize] keeps the
      format tag and stores the rescaled coordinates. *)
Theorem receiver_after_call (b b' : Bbox.t) :
    (forall r, Bbox.to_xyxy B b = Ok (r, b') -> b' = b)
    /\ (forall r, Bbox.to_xywh B b = Ok (r, b') -> b' = b)
    /\ (Bbox.format_xyxy B b = Ok (tt, b') ->
        Bbox._is_normalized b' = Bbox._is_normalized b
        /\ (Bbox._format b <> "xywh" -> b' = b)
        /\ (Bbox._format b = "xywh" ->
            Bbox._format b' = "xyxy"
            /\ boxes.xywh_to_xyxy B (Bbox._coords b) = Ok (Bbox._coords b')))
    /\ (Bbox.format_xywh B b = Ok (tt, b') ->
        Bbox._is_normalized b' = Bbox._is_normalized b
        /\ (Bbox._format b <> "xyxy" -> b' = b)
        /\ (Bbox._format b = "xyxy" ->
            Bbox._format b' = "xywh"
            /\ boxes.xyxy_to_xywh B (Bbox._coords b) = Ok (Bbox._coords b')))
    /\ (forall height width, Bbox.normalize B b height width = Ok (tt, b') ->
        Bbox._is_normalized b' = Bbox._is_normalized b
        /\ Bbox._format b' = Bbox._format b
        /\ boxes.normalize B (Bbox._coords b) height width = Ok (Bbox._coords b')).
  Proof.
    split; [|split; [|split; [|split]]].
    - unfold Bbox.to_xyxy. intros r.
      destruct (String.eqb (Bbox._format b) "xywh");
        [destruct (boxes.xywh_to_xyxy B (Bbox._coords b)); simpl|];
        intros H; inversion H; reflexivity.
    - unfold Bbox.to_xywh. intros r.
      destruct (String.eqb (Bbox._format b) "xyxy");
        [destruct (boxes.xyxy_to_xywh B (Bbox._coords b)); simpl|];
        intros H; inversion H; reflexivity.
    - unfold Bbox.format_xyxy.
      destruct (String.eqb (Bbox._format b) "xywh") eqn:E.
      + apply String.eqb_eq in E.
        destruct (boxes.xywh_to_xyxy B (Bbox._coords b)) as [c|e]; simpl;
          intros H; inversion H; subst b'; simpl.
        repeat split; congruence.
      + apply String.eqb_neq in E. intros H; inversion H; subst b'.
        repeat split; congruence.
    - unfold Bbox.format_xywh.
      destruct (String.eqb (Bbox._format b) "xyxy") eqn:E.
      + apply String.eqb_eq in E.
        destruct (boxes.xyxy_to_xywh B (Bbox._coords b)) as [c|e]; simpl;
          intros H; inversion H; subst b'; simpl.
        repeat split; congruence.
      + apply String.eqb_neq in E. intros H; inversion H; subst b'.
        repeat split; congruence.
    - intros height width. unfold Bbox.normalize.
      destruct (boxes.normalize B (Bbox._coords b) height width) as [c|e]; simpl;
        intros H; inversion H; subst b'; simpl.
      repeat split.
  Qed.

  (** C4, as the code has it.  The constructor validates nothing: every
      coordinate list and every format tag is accepted and stored as
      given.  A Bbox whose tag is not xywh gives its stored list to
      [to_xyxy] and is left as it is by [format_xyxy], whatever the length
      of the list, and likewise for a tag that is not xyxy with [to_xywh]
      and [format_xywh]. *)
Theorem malformed_bbox_accepted (coords : list Q) (tag : string) (flag : option bool) :
    exists b,
      Bbox.__init__ coords tag flag = Ok b
      /\ Bbox._coords b = coords
      /\ Bbox._format b = tag
      /\ (tag <> "xywh" ->
          Bbox.to_xyxy B b = Ok (coords, b) /\ Bbox.format_xyxy B b = Ok (tt, b))
      /\ (tag <> "xyxy" ->
          Bbox.to_xywh B b = Ok (coords, b) /\ Bbox.format_xywh B b = Ok (tt, b)).
  Proof.
    eexists. split; [reflexivity|]. simpl. repeat split.
    - unfold Bbox.to_xyxy; simpl. apply String.eqb_neq in H. rewrite H. reflexivity.
    - apply format_xyxy_other. simpl. apply String.eqb_neq. exact H.
    - unfold Bbox.to_xywh; simpl. apply String.eqb_neq in H. rewrite H. reflexivity.
    - apply format_xywh_other. simpl. apply String.eqb_neq. exact H.
  Qed.

End BboxProperties.

(** [format_xyxy] on an xywh box with the conversions of the
    specification: the first call converts, the second changes nothing. *)
Example format_xyxy_twice :
  Bbox.format_xyxy boxes_spec.impl (Bbox.mk [1; 2; 3; 4]%Q "xywh" true)
    = Ok (tt, Bbox.mk [1; 2; 4; 6]%Q "xyxy" true)
  /\ Bbox.format_xyxy boxes_spec.impl (Bbox.mk [1; 2; 4; 6]%Q "xyxy" true)
    = Ok (tt, Bbox.mk [1; 2; 4; 6]%Q "xyxy" true).
Proof. split; reflexivity. Qed.

(** C8 fails as stated: [format_xyxy] on the xywh box [[1, 2, 3, 4]]
    returns nothing and leaves the receiver with other coordinates and
    another format tag. *)
Lemma format_xyxy_modifies_receiver :
  Bbox.format_xyxy boxes_spec.impl (Bbox.mk [1; 2; 3; 4]%Q "xywh" true)
    = Ok (tt, Bbox.mk [1; 2; 4; 6]%Q "xyxy" true)
  /\ Bbox.mk [1; 2; 4; 6]%Q "xyxy" true <> Bbox.mk [1; 2; 3; 4]%Q "xywh" true.
Proof. split; [reflexivity | discriminate]. Qed.

Lemma receiver_after_call_witness :
  Bbox.format_xyxy boxes_spec.impl (Bbox.mk [1; 2; 3; 4]%Q "xywh" true)
    = Ok (tt, Bbox.mk [1; 2; 4; 6]%Q "xyxy" true)
  /\ Bbox._is_normalized (Bbox.mk [1; 2; 4; 6]%Q "xyxy" true) = true
  /\ Bbox._format (Bbox.mk [1; 2; 4; 6]%Q "xyxy" true) = "xyxy"
  /\ boxes.xywh_to_xyxy boxes_spec.impl [1; 2; 3; 4]%Q = Ok [1; 2; 4; 6]%Q.
Proof.
  assert (E : Bbox.format_xyxy boxes_spec.impl (Bbox.mk [1; 2; 3; 4]%Q "xywh" true)
              = Ok (tt, Bbox.mk [1; 2; 4; 6]%Q "xyxy" true)) by reflexivity.
  split; [exact E|].
  destruct (receiver_after_call boxes_spec.impl
              (Bbox.mk [1; 2; 3; 4]%Q "xywh" true)
              (Bbox.mk [1; 2; 4; 6]%Q "xyxy" true))
    as (_ & _ & H & _).
  destruct (H E) as (Hn & _ & Hc).
  destruct (Hc eq_refl) as (Hf & Hx).
  exact (conj Hn (conj Hf Hx)).
Defined.

(** C4 fails as stated: a three-element list with the tag [foo] is
    accepted by the constructor, and [to_xyxy] and [to_xywh] hand the list
    back. *)
Lemma malformed_bbox_not_rejected :
  Bbox.__init__ [1; 2; 3]%Q "foo" None = Ok (Bbox.mk [1; 2; 3]%Q "foo" true)
  /\ Bbox.to_xyxy boxes_spec.impl (Bbox.mk [1; 2; 3]%Q "foo" true)
     = Ok ([1; 2; 3]%Q, Bbox.mk [1; 2; 3]%Q "foo" true)
  /\ Bbox.to_xywh boxes_spec.impl (Bbox.mk [1; 2; 3]%Q "foo" true)
     = Ok ([1; 2; 3]%Q, Bbox.mk [1; 2; 3]%Q "foo" true).
Proof. repeat split. Qed.

Lemma malformed_bbox_accepted_witness :
  exists b,
    Bbox.__init__ [1; 2; 3]%Q "foo" None = Ok b
    /\ Bbox.to_xyxy boxes_spec.impl b = Ok ([1; 2; 3]%Q, b)
    /\ Bbox.format_xywh boxes_spec.impl b = Ok (tt, b).
Proof.
  destruct (malformed_bbox_accepted boxes_spec.impl [1; 2; 3]%Q "foo" None)
    as (b & Hb & _ & _ & H1 & H2).
  exists b. split; [exact Hb|]. split.
  - apply H1. discriminate.
  - apply H2. discriminate.
Defined.

(** ** Image: content and URL accessors *)

(** C5. Stored bytes come first and are returned without a file being
    opened; without stored bytes the content is what [open] reads from the
    URI at that moment, at the URI itself or at the path that a path
    prefix joined with it names, or the exception that this raises (for a
    string prefix the [TypeError] of [uri_prefix / _uri]); with neither
    bytes nor URI, the content is [None] and the URL is the empty string,
    and nothing is raised. *)
Theorem image_content_precedence
    (fs : Image.FS) (uri : option string) (u p s : string) (b : list Byte.byte)
    (preview : option (list Byte.byte)) (prefix : option Image.PathLike) :
  Image.bytes (Image.mk uri (Some b) preview prefix) fs = (Ok (Some b), [])
  /\ Image.bytes (Image.mk (Some u) None preview None) fs
     = (match Image.read fs u with
        | Ok content => Ok (Some content)
        | Raise e => Raise e
        end, [u])
  /\ Image.bytes (Image.mk (Some u) None preview (Some (Image.PathPrefix p))) fs
     = (match Image.read fs (Image.join fs p u) with
        | Ok content => Ok (Some content)
        | Raise e => Raise e
        end, [Image.join fs p u])
  /\ Image.bytes (Image.mk (Some u) None preview (Some (Image.StrPrefix s))) fs
     = (Raise TypeError, [])
  /\ Image.bytes (Image.mk None None preview prefix) fs = (Ok None, [])
  /\ Image.url (Image.mk None None preview prefix) fs = (Ok "", []).
Proof.
  unfold Image.bytes, Image.io_bind, Image.open; simpl.
  split; [reflexivity|]. split.
  { destruct (Image.read fs u); reflexivity. }
  split.
  { destruct (Image.read fs (Image.join fs p u)); reflexivity. }
  repeat split.
Qed.

(** C9. With preview bytes absent [preview_url] raises [TypeError], for
    [b64encode] is given [None]; [url] on an image without content returns
    the empty string. *)
Theorem preview_url_of_absent_preview
    (fs : Image.FS) (uri : option string) (b : option (list Byte.byte))
    (prefix : option Image.PathLike) :
  Image.preview_url (Image.mk uri b None prefix) = Raise TypeError
  /\ Image.url (Image.mk None None None prefix) fs = (Ok "", []).
Proof. split; reflexivity. Qed.

Example preview_url_of_bytes :
  Image.preview_url (Image.mk None None (Some [Byte.x4d; Byte.x61; Byte.x6e]) None)
  = Ok "data:image;base64,TWFu".
Proof. reflexivity. Qed.


(** ** ObjectAnnotation: construction, batch encoding and decoding *)

Section HeapFacts.

Import Py.

Lemma deref_alloc (o : Object) (h : Heap) :
  deref (snd (alloc o h)) (fst (alloc o h)) = Some o.
Proof.
  unfold alloc; simpl.
  rewrite nth_error_app2 by apply Nat.le_refl.
  rewrite Nat.sub_diag. reflexivity.
Qed.

Lemma deref_alloc_old (o x : Object) (h : Heap) (v : Value) :
  deref h v = Some x -> deref (snd (alloc o h)) v = Some x.
Proof.
  destruct v; simpl; try discriminate.
  intros H. rewrite nth_error_app1; [exact H|].
  apply nth_error_Some. congruence.
Qed.


End HeapFacts.

(** C6. Batch encoding of the empty list returns the empty column
    mapping, in every heap, and raises nothing. *)
Theorem from_list_to_dict_empty (h : Py.Heap) :
  ObjectAnnotation.from_list_to_dict h [] = Ok [].
Proof. reflexivity. Qed.



(** What the sharing means: an assignment to an element of the [bbox] of
    one annotation built without [bbox] is read back through another. *)
Example shared_default_is_aliased :
  let D := fst (ObjectAnnotation.def__init__ []) in
  let h0 := snd (ObjectAnnotation.def__init__ []) in
  let o1 := ObjectAnnotation.new D (ObjectAnnotation.only_id (Py.VStr "a")) h0 in
  let o2 := ObjectAnnotation.new D (ObjectAnnotation.only_id (Py.VStr "b")) (snd o1) in
  (b1 <- Py.getattr (snd o2) (fst o1) "bbox" ;;
   h' <- Py.list_setitem (snd o2) b1 0 (Py.VInt 5) ;;
   b2 <- Py.getattr h' (fst o2) "bbox" ;;
   Py.list_getitem h' b2 0) = Ok (Py.VInt 5).
Proof. reflexivity. Qed.


(** C2.  What the code does where the claim says that a null cell decodes
    to [None]: decoding raises.  [as_py] reads the field [bbox] of the
    row, whose type [BBoxType] names [Bbox], which is no scalar class, so
    that every row of the ObjectAnnotation layout raises [TypeError],
    whether the cell of [bbox] is null or not, and no cell at all decodes
    to an annotation.  The encoding is as the claim says: an annotation
    built with [bbox] and [mask] absent is batch-encoded into columns
    whose [bbox] and [mask] cells are null; decoding the row of the layout
    that holds the cells of this annotation raises [TypeError]. *)
Theorem row_decoding_raises
    (D : ObjectAnnotation.Defaults) (fields : Py.Dict pa.Cell) (value : pa.Cell)
    (h : Py.Heap) (id : string) :
  (has_layout fields ->
   ObjectAnnotation.as_py D (pa.CStruct fields) h = Raise TypeError)
  /\ (forall r, ObjectAnnotation.as_py D value h <> Ok r)
  /\ (let D0 := fst (ObjectAnnotation.def__init__ []) in
      let h0 := snd (ObjectAnnotation.def__init__ []) in
      let o := ObjectAnnotation.new D0 (without_bbox_and_mask id) h0 in
      (columns <- ObjectAnnotation.from_list_to_dict (snd o) [fst o] ;;
       Ok (Py.dict_get columns "bbox", Py.dict_get columns "mask"))
      = Ok (Some (pa.mkArray None [pa.CNull]), Some (pa.mkArray None [pa.CNull]))
      /\ (rows <- ObjectAnnotation.from_list (snd o) [fst o] ;;
          match rows with
          | [row] => ObjectAnnotation.as_py D0 row (snd o)
          | _ => Raise IndexError
          end)
         = Raise TypeError).
Proof.
  split; [|split].
  - intros L. unfold ObjectAnnotation.as_py, ObjectAnnotation.field_as_py,
      ObjectAnnotation.getitem.
    destruct (Py.dict_get fields "id") as [c1|] eqn:E1;
      [|exfalso; apply (L "id"); [simpl; tauto | exact E1]].
    simpl. destruct (pa.as_py c1 h) as [v1 h1].
    destruct (Py.dict_get fields "view_id") as [c2|] eqn:E2;
      [|exfalso; apply (L "view_id"); [simpl; tauto | exact E2]].
    simpl. destruct (pa.as_py c2 h1) as [v2 h2].
    destruct (Py.dict_get fields "bbox") as [c3|] eqn:E3;
      [|exfalso; apply (L "bbox"); [simpl; tauto | exact E3]].
    reflexivity.
  - intros r. unfold ObjectAnnotation.as_py, ObjectAnnotation.field_as_py,
      ObjectAnnotation.getitem.
    destruct value as [| b | z | q | s | bs | items | fs]; try discriminate.
    destruct (Py.dict_get fs "id") as [c1|]; [|discriminate].
    simpl. destruct (pa.as_py c1 h) as [v1 h1].
    destruct (Py.dict_get fs "view_id") as [c2|]; [|discriminate].
    simpl. destruct (pa.as_py c2 h1) as [v2 h2].
    destruct (Py.dict_get fs "bbox") as [c3|]; discriminate.
  - split; vm_compute; reflexivity.
Qed.

Lemma row_decoding_raises_witness :
  let fields := map (fun name => (name, pa.CNull)) field_names in
  has_layout fields
  /\ ObjectAnnotation.as_py (fst (ObjectAnnotation.def__init__ []))
       (pa.CStruct fields) [] = Raise TypeError.
Proof.
  intros fields.
  assert (L : has_layout fields).
  { intros name I. simpl in I.
    repeat (destruct I as [I|I]; [subst name; discriminate|]). contradiction. }
  split; [exact L|].
  destruct (row_decoding_raises (fst (ObjectAnnotation.def__init__ []))
              fields pa.CNull [] "a") as [H _].
  exact (H L).
Defined.


Section BatchEncoding.

Import Py.

Lemma mapM_length {A B : Type} (f : A -> Res B) (xs : list A) (ys : list B) :
  mapM f xs = Ok ys -> List.length ys = List.length xs.
Proof.
  revert ys. induction xs as [|x xs IH]; simpl; intros ys H.
  - inversion H. reflexivity.
  - destruct (f x) as [y|e]; simpl in H; [|discriminate].
    destruct (mapM f xs) as [ys'|e]; simpl in H; [|discriminate].
    inversion H. simpl. f_equal. apply IH. reflexivity.
Qed.

Lemma dict_get_In {A : Type} (d : Dict A) (k : string) :
  In k (keys d) -> exists v, dict_get d k = Some v.
Proof.
  unfold keys. induction d as [|[k0 v0] d IH]; simpl; intros I.
  - contradiction.
  - destruct (String.eqb k0 k) eqn:E.
    + exists v0. reflexivity.
    + apply IH. destruct I as [I|I]; [|exact I].
      apply String.eqb_neq in E. congruence.
Qed.

End BatchEncoding.

(** C3.  What the code does on a list that the claim covers: the
    annotations at 6 and 7 have the same fifteen attributes, the first
    holds a BBox as [bbox] and the second [None], which the field admits.
    Whether a column goes through [to_dict] is decided from the first
    value alone, [None] has no [to_dict], and batch encoding raises
    [AttributeError] where the claim says one column of length 2 per
    attribute. *)
Lemma batch_encoding_raises_on_absent_bbox :
  (d1 <- Py.instance_dict example_heap (Py.VRef 6%nat) ;;
   d2 <- Py.instance_dict example_heap (Py.VRef 7%nat) ;;
   Ok (Py.keys d1, Py.keys d2)) = Ok (field_names, field_names)
  /\ Py.getattr example_heap (Py.VRef 6%nat) "bbox" = Ok (Py.VRef 5%nat)
  /\ Py.class_of example_heap (Py.VRef 5%nat) = Some Py.BBox
  /\ Py.getattr example_heap (Py.VRef 7%nat) "bbox" = Ok Py.VNone
  /\ ObjectAnnotation.from_list_to_dict example_heap [Py.VRef 6%nat; Py.VRef 7%nat]
     = Raise AttributeError.
Proof. repeat split. Qed.


(** ** Bbox: the round trip between the two coordinate formats *)

Section FloatRounding.

Local Open Scope Q_scope.

(** Rounding to the nearest integer is off by a half at most. *)
Lemma round_half_even_error (y : Q) :
  Qabs (inject_Z (Float64.round_half_even y) - y) <= 1 # 2.
Proof.
  unfold Float64.round_half_even.
  pose proof (Qfloor_le y) as Hl. pose proof (Qlt_floor y) as Hu.
  rewrite inject_Z_plus in Hu. change (inject_Z 1) with 1 in Hu.
  apply Qabs_Qle_condition.
  destruct (Qcompare_spec (y - inject_Z (Qfloor y)) (1 # 2)) as [E|E|E].
  - destruct (Z.even (Qfloor y));
      [|rewrite inject_Z_plus; change (inject_Z 1) with 1]; lra.
  - lra.
  - rewrite inject_Z_plus. change (inject_Z 1) with 1. lra.
Qed.

Lemma pow2_pos (e : Z) : 0 < 2 ^ e.
Proof. apply Qpower_0_lt. reflexivity. Qed.

(** The exponent that [ilog2] finds is not above its argument. *)
Lemma ilog2_le (q : Q) : ~ q == 0 -> 2 ^ Float64.ilog2 q <= Qabs q.
Proof.
  intros Hq. unfold Float64.ilog2.
  set (a := Z.log2 (Z.abs (Qnum q))).
  set (b := Z.log2 (Z.pos (Qden q))).
  destruct (Qle_bool (2 ^ (a - b)) (Qabs q)) eqn:E.
  - apply Qle_bool_iff. exact E.
  - clear E.
    assert (Hn : (0 < Z.abs (Qnum q))%Z).
    { destruct q as [n d]. unfold Qeq in Hq. simpl in *. lia. }
    assert (Ha : (2 ^ a <= Z.abs (Qnum q))%Z).
    { apply Z.log2_spec. exact Hn. }
    assert (Hb : (Z.pos (Qden q) < 2 ^ (b + 1))%Z).
    { replace (b + 1)%Z with (Z.succ b) by lia. apply Z.log2_spec. lia. }
    assert (Ha0 : (0 <= a)%Z) by apply Z.log2_nonneg.
    assert (Hb0 : (0 <= b)%Z) by apply Z.log2_nonneg.
    replace (a - b - 1)%Z with (a - (b + 1))%Z by lia.
    rewrite Qpower_minus by discriminate.
    change 2 with (inject_Z 2).
    rewrite <- !Zpower_Qpower by lia.
    destruct q as [n d]. simpl in *.
    apply Qle_shift_div_r.
    + change 0 with (inject_Z 0). rewrite <- Zlt_Qlt. lia.
    + unfold Qle, Qmult, inject_Z. simpl. nia.
Qed.


(** The relative error of one rounding. *)
Lemma round_error (q : Q) : Qabs (Float64.round q - q) <= unit_roundoff * Qabs q.
Proof.
  unfold Float64.round.
  destruct (Qeq_bool q 0) eqn:E0.
  - apply Qeq_bool_iff in E0. rewrite E0. vm_compute. discriminate.
  - apply Qeq_bool_neq in E0.
    set (e := (Float64.ilog2 q - (Float64.prec - 1))%Z).
    pose proof (pow2_pos e) as Hs.
    pose proof (round_half_even_error (q / 2 ^ e)) as Hm.
    set (m := inject_Z (Float64.round_half_even (q / 2 ^ e))) in *.
    rewrite Qred_correct.
    assert (Hq : q == (q / 2 ^ e) * 2 ^ e).
    { field. intros H. rewrite H in Hs. discriminate Hs. }
    assert (Hd : m * 2 ^ e - q == (m - q / 2 ^ e) * 2 ^ e).
    { rewrite Hq at 1. ring. }
    rewrite Hd, Qabs_Qmult, (Qabs_pos (2 ^ e)) by (apply Qlt_le_weak; exact Hs).
    assert (Hl : 2 ^ e * (4503599627370496 # 1) <= Qabs q).
    { pose proof (@ilog2_le q E0) as H.
      replace (Float64.ilog2 q) with (e + 52)%Z in H
        by (unfold e, Float64.prec; lia).
      rewrite Qpower_plus in H by discriminate. exact H. }
    apply Qle_trans with ((1 # 2) * 2 ^ e).
    + apply Qmult_le_compat_r; [exact Hm | apply Qlt_le_weak; exact Hs].
    + unfold unit_roundoff. lra.
Qed.


(** A difference added back: two roundings, each relative to at most
    [2^32]. *)
Lemma add_sub_error (x1 x2 : Q) :
  Qabs x1 <= coordinate_bound -> Qabs x2 <= coordinate_bound ->
  Qabs (Float64.add x1 (Float64.sub x2 x1) - x2) <= epsilon.
Proof.
  unfold coordinate_bound, epsilon, Float64.add, Float64.sub. intros H1 H2.
  apply Qabs_Qle_condition in H1. apply Qabs_Qle_condition in H2.
  set (w := Float64.round (x2 - x1)).
  pose proof (round_error (x2 - x1)) as Hw. fold w in Hw.
  assert (Hd : Qabs (x2 - x1) <= 4294967296).
  { apply Qabs_Qle_condition. lra. }
  assert (Hw' : Qabs (w - (x2 - x1)) <= unit_roundoff * 4294967296).
  { eapply Qle_trans; [exact Hw|]. apply Qmult_le_l; [reflexivity | exact Hd]. }
  clear Hw Hd. apply Qabs_Qle_condition in Hw'. unfold unit_roundoff in Hw'.
  set (r := Float64.round (x1 + w)).
  pose proof (round_error (x1 + w)) as Hr. fold r in Hr.
  assert (Hs : Qabs (x1 + w) <= 2147483649).
  { apply Qabs_Qle_condition. lra. }
  assert (Hr' : Qabs (r - (x1 + w)) <= unit_roundoff * 2147483649).
  { eapply Qle_trans; [exact Hr|]. apply Qmult_le_l; [reflexivity | exact Hs]. }
  clear Hr Hs. apply Qabs_Qle_condition in Hr'. unfold unit_roundoff in Hr'.
  apply Qabs_Qle_condition. lra.
Qed.

End FloatRounding.


Lemma round_trip_eq (x1 y1 x2 y2 : Q) :
  round_trip boxes_spec.impl [x1; y1; x2; y2]
  = Ok [x1; y1; Float64.add x1 (Float64.sub x2 x1);
        Float64.add y1 (Float64.sub y2 y1)].
Proof. reflexivity. Qed.

(** C1, as the arithmetic has it.  For four coordinates of magnitude at
    most [2^31] the round trip xyxy, xywh, xyxy returns four coordinates:
    the corner [x1], [y1] exactly as it was, and a far corner within
    [1e-6] of [x2], [y2]. *)
Theorem round_trip_within_epsilon (x1 y1 x2 y2 : Q) :
  Qabs x1 <= coordinate_bound -> Qabs y1 <= coordinate_bound ->
  Qabs x2 <= coordinate_bound -> Qabs y2 <= coordinate_bound ->
  exists x2' y2',
    round_trip boxes_spec.impl [x1; y1; x2; y2] = Ok [x1; y1; x2'; y2']
    /\ Qabs (x2' - x2) <= epsilon
    /\ Qabs (y2' - y2) <= epsilon
    /\ within epsilon [x1; y1; x2'; y2'] [x1; y1; x2; y2].
Proof.
  intros Hx1 Hy1 Hx2 Hy2.
  exists (Float64.add x1 (Float64.sub x2 x1)), (Float64.add y1 (Float64.sub y2 y1)).
  split; [apply round_trip_eq|].
  assert (Z0 : forall x : Q, Qabs (x - x) <= epsilon).
  { intros x. apply Qabs_Qle_condition. unfold epsilon. lra. }
  split; [apply add_sub_error; assumption|].
  split; [apply add_sub_error; assumption|].
  repeat constructor; auto using add_sub_error.
Qed.

(** C1 fails as stated: in binary64 the box [[0.5, 0.5, 2^52 + 1, 2^52 + 1]]
    comes back as [[0.5, 0.5, 2^52, 2^52]], off by one. *)
Lemma round_trip_off_by_one :
  round_trip boxes_spec.impl
    [1 # 2; 1 # 2; 4503599627370497; 4503599627370497]%Q
  = Ok [1 # 2; 1 # 2; 4503599627370496; 4503599627370496]%Q
  /\ ~ within epsilon
        [1 # 2; 1 # 2; 4503599627370496; 4503599627370496]%Q
        [1 # 2; 1 # 2; 4503599627370497; 4503599627370497]%Q.
Proof.
  split; [vm_compute; reflexivity|].
  intros H.
  inversion H as [|a0 b0 l0 m0 _ K1]; subst.
  inversion K1 as [|a1 b1 l1 m1 _ K2]; subst.
  inversion K2 as [|a2 b2 l2 m2 K3 _]; subst.
  vm_compute in K3. apply K3. reflexivity.
Qed.

(** The example of the specification, on the floats nearest to the
    decimals: [[0.1, 0.2, 0.5, 0.6]] goes to [[0.1, 0.2, 0.4, w]] where
    [w] is the float below [0.4]. *)
Example to_xywh_example :
  Bbox.to_xywh boxes_spec.impl
    (Bbox.mk [Float64.lit (1 # 10); Float64.lit (2 # 10); Float64.lit (5 # 10);
              Float64.lit (6 # 10)] "xyxy" true)
  = Ok ([Float64.lit (1 # 10); Float64.lit (2 # 10); Float64.lit (4 # 10);
         (7205759403792793 # 18014398509481984)%Q],
        Bbox.mk [Float64.lit (1 # 10); Float64.lit (2 # 10); Float64.lit (5 # 10);
                 Float64.lit (6 # 10)] "xyxy" true).
Proof. vm_compute. reflexivity. Qed.

Lemma round_trip_within_epsilon_witness :
  exists x2' y2',
    round_trip boxes_spec.impl
      [Float64.lit (1 # 10); Float64.lit (2 # 10); Float64.lit (5 # 10);
       Float64.lit (6 # 10)]
    = Ok [Float64.lit (1 # 10); Float64.lit (2 # 10); x2'; y2']
    /\ Qabs (x2' - Float64.lit (5 # 10)) <= epsilon
    /\ Qabs (y2' - Float64.lit (6 # 10)) <= epsilon.
Proof.
  assert (B : forall q, In q [1 # 10; 2 # 10; 5 # 10; 6 # 10] ->
                Qabs (Float64.lit q) <= coordinate_bound).
  { intros q [<-|[<-|[<-|[<-|[]]]]]; vm_compute; discriminate. }
  destruct (round_trip_within_epsilon
              (Float64.lit (1 # 10)) (Float64.lit (2 # 10))
              (Float64.lit (5 # 10)) (Float64.lit (6 # 10))
              (B _ (or_introl eq_refl))
              (B _ (or_intror (or_introl eq_refl)))
              (B _ (or_intror (or_intror (or_introl eq_refl))))
              (B _ (or_intror (or_intror (or_intror (or_introl eq_refl))))))
    as (x2' & y2' & E & Hx & Hy & _).
  exists x2', y2'. split; [exact E|]. split; [exact Hx | exact Hy].
Defined.


(** * Further properties of the code *)

(** ** Bbox *)

Section BboxConversions.

Variable B : boxes.impl.

(** X1. A getter returns what the converter of the same name stores: the
    list of [to_xyxy] is the coordinate list that [format_xyxy] leaves in
    the receiver, and both raise together; likewise [to_xywh] and
    [format_xywh]. *)
Theorem getter_agrees_with_converter (b : Bbox.t) :
  Bbox.to_xyxy B b
    = (r <- Bbox.format_xyxy B b ;; Ok (Bbox._coords (snd r), b))
  /\ Bbox.to_xywh B b
    = (r <- Bbox.format_xywh B b ;; Ok (Bbox._coords (snd r), b)).
Proof.
  unfold Bbox.to_xyxy, Bbox.format_xyxy, Bbox.to_xywh, Bbox.format_xywh.
  split.
  - destruct (String.eqb (Bbox._format b) "xywh"); [|reflexivity].
    destruct (boxes.xywh_to_xyxy B (Bbox._coords b)); reflexivity.
  - destruct (String.eqb (Bbox._format b) "xyxy"); [|reflexivity].
    destruct (boxes.xyxy_to_xywh B (Bbox._coords b)); reflexivity.
Qed.

(** X2. Converting an xyxy box to xywh and back puts its coordinates
    through [xyxy_to_xywh] and then [xywh_to_xyxy], restores the tag and
    keeps the flag; where the second function undoes the first, the box is
    the one the calls started from. *)
Theorem format_there_and_back (c : list Q) (flag : bool) :
  (r <- Bbox.format_xywh B (Bbox.mk c "xyxy" flag) ;; Bbox.format_xyxy B (snd r))
    = (c1 <- boxes.xyxy_to_xywh B c ;;
       c2 <- boxes.xywh_to_xyxy B c1 ;;
       Ok (tt, Bbox.mk c2 "xyxy" flag))
  /\ (forall c1,
        boxes.xyxy_to_xywh B c = Ok c1 -> boxes.xywh_to_xyxy B c1 = Ok c ->
        (r <- Bbox.format_xywh B (Bbox.mk c "xyxy" flag) ;;
         Bbox.format_xyxy B (snd r))
        = Ok (tt, Bbox.mk c "xyxy" flag)).
Proof.
  assert (E : (r <- Bbox.format_xywh B (Bbox.mk c "xyxy" flag) ;;
               Bbox.format_xyxy B (snd r))
              = (c1 <- boxes.xyxy_to_xywh B c ;;
                 c2 <- boxes.xywh_to_xyxy B c1 ;;
                 Ok (tt, Bbox.mk c2 "xyxy" flag))).
  { unfold Bbox.format_xywh, Bbox.format_xyxy. simpl.
    destruct (boxes.xyxy_to_xywh B c) as [c1|e]; reflexivity. }
  split; [exact E|].
  intros c1 H1 H2. rewrite E, H1. simpl. rewrite H2. reflexivity.
Qed.

End BboxConversions.

Lemma format_there_and_back_witness :
  (r <- Bbox.format_xywh boxes_spec.impl (Bbox.mk [1; 2; 4; 6]%Q "xyxy" false) ;;
   Bbox.format_xyxy boxes_spec.impl (snd r))
  = Ok (tt, Bbox.mk [1; 2; 4; 6]%Q "xyxy" false).
Proof.
  destruct (format_there_and_back boxes_spec.impl [1; 2; 4; 6]%Q false) as [_ H].
  apply (H [1; 2; 3; 4]%Q); reflexivity.
Defined.

(** ** Image *)



(** X4. An image list that is encoded with [from_Image_list] and decoded
    cell by cell with [ImageScalar.as_py] comes back with URI, bytes and
    preview bytes as they were and with [uri_prefix] reset to [None]:
    encoding never fails, it makes one struct cell of each image, and the
    prefix does not survive it. *)
Theorem image_round_trip (image_list : list Image.t) :
  ImageArrow.from_Image_list image_list = Ok (map image_cell image_list)
  /\ mapM ImageArrow.as_py (map image_cell image_list)
     = Ok (map without_prefix image_list).
Proof.
  unfold ImageArrow.from_Image_list.
  induction image_list as [|i rest [E D]].
  - split; reflexivity.
  - destruct i as [uri bytes preview prefix]. split.
    + simpl in *. rewrite E. destruct uri, bytes, preview; reflexivity.
    + simpl in *. rewrite D. destruct uri, bytes, preview; reflexivity.
Qed.

(** ** ObjectAnnotation: decoding *)

(** X5. [ObjectAnnotationTypeScalar.as_py] builds no annotation, whatever
    the cell.  The fields are read in the order of the call: on a struct
    that lacks [id], [view_id] or [bbox] the lookup raises [KeyError]; on
    every other struct the scalar of [bbox] cannot be made and [TypeError]
    is raised, before any of the twelve fields after it is read; a null
    scalar, whose value is [None], and any cell that is no struct raise
    [TypeError] at the first lookup. *)
Theorem as_py_builds_no_annotation
    (D : ObjectAnnotation.Defaults) (value : pa.Cell) (h : Py.Heap) :
  ObjectAnnotation.as_py D value h
  = match value with
    | pa.CStruct fields =>
        match Py.dict_get fields "id", Py.dict_get fields "view_id",
              Py.dict_get fields "bbox" with
        | Some _, Some _, Some _ => Raise TypeError
        | _, _, _ => Raise KeyError
        end
    | _ => Raise TypeError
    end.
Proof.
  unfold ObjectAnnotation.as_py, ObjectAnnotation.field_as_py, ObjectAnnotation.getitem.
  destruct value as [| b | z | q | s | bs | items | fields]; try reflexivity.
  destruct (Py.dict_get fields "id") as [c1|]; [|reflexivity].
  simpl. destruct (pa.as_py c1 h) as [v1 h1].
  destruct (Py.dict_get fields "view_id") as [c2|]; [|reflexivity].
  simpl. destruct (pa.as_py c2 h1) as [v2 h2].
  destruct (Py.dict_get fields "bbox") as [c3|]; reflexivity.
Qed.

(** ** ObjectAnnotation: what batch encoding returns *)

Section BatchEncodingConverse.

Import Py.

Lemma mapM_inv {A B : Type} (f : A -> Res B) (xs : list A) (ys : list B) :
  mapM f xs = Ok ys -> forall x, In x xs -> exists y, f x = Ok y.
Proof.
  revert ys. induction xs as [|x0 xs IH]; simpl; intros ys H x I; [contradiction|].
  destruct (f x0) as [y0|e] eqn:E0; simpl in H; [|discriminate].
  destruct (mapM f xs) as [ys'|e]; simpl in H; [|discriminate].
  destruct I as [<-|I]; [exists y0; exact E0 | exact (IH ys' eq_refl x I)].
Qed.

Lemma mapM_map {A B : Type} (f : A -> Res B) (g : A -> B) (xs : list A) :
  (forall x, In x xs -> f x = Ok (g x)) -> mapM f xs = Ok (map g xs).
Proof.
  induction xs as [|x xs IH]; simpl; intros H; [reflexivity|].
  rewrite (H x (or_introl eq_refl)). simpl. rewrite IH; [reflexivity|].
  intros y I. apply H. right. exact I.
Qed.

Lemma mapM_is_map {A B : Type} (f : A -> Res B) (d : B) (xs : list A) (ys : list B) :
  mapM f xs = Ok ys ->
  ys = map (fun x => match f x with Ok y => y | Raise _ => d end) xs.
Proof.
  revert ys. induction xs as [|x xs IH]; simpl; intros ys H.
  - injection H as <-. reflexivity.
  - destruct (f x) as [y|e]; simpl in H; [|discriminate].
    destruct (mapM f xs) as [ys'|e]; simpl in H; [|discriminate].
    injection H as <-. f_equal. apply IH. reflexivity.
Qed.

Lemma infer_length (cs cs' : list pa.Cell) :
  pa.infer cs = Ok cs' -> List.length cs' = List.length cs.
Proof.
  unfold pa.infer. intros H.
  destruct (forallb (fun c => forallb (pa.compatible c) cs) cs); [|discriminate H].
  destruct (existsb pa.is_float cs).
  - exact (@mapM_length _ _ _ _ _ H).
  - injection H as <-. reflexivity.
Qed.

(** What a column that was built says of the list. *)
Lemma column_inv (h : Heap) (first : Value) (rest : list Value) (attr : string)
    (arr : pa.Array) :
  ObjectAnnotation.column h (first :: rest) attr = Ok arr ->
  List.length (pa.cells arr) = S (List.length rest)
  /\ exists v0,
       getattr h first attr = Ok v0
       /\ forall a, In a (first :: rest) ->
            exists v, getattr h a attr = Ok v
                      /\ column_value_ok h (ObjectAnnotation.mapped_type h v0) v = true.
Proof.
  unfold ObjectAnnotation.column. intros H.
  destruct (mapM (fun annotation => getattr h annotation attr) (first :: rest))
    as [vs|e] eqn:Ev; [|discriminate H].
  cbn [bind] in H.
  pose proof (@mapM_length _ _ _ _ _ Ev) as Lv.
  pose proof (@mapM_is_map _ _ _ VNone _ _ Ev) as Mv.
  pose proof (@mapM_inv _ _ _ _ _ Ev) as Iv.
  destruct vs as [|v0 vs]; [discriminate H|].
  assert (E0 : getattr h first attr = Ok v0).
  { simpl in Mv. injection Mv as M0 _.
    destruct (Iv first (or_introl eq_refl)) as [y Ey]. rewrite Ey in M0 |- *.
    congruence. }
  assert (Vin : forall a, In a (first :: rest) ->
                  exists v, getattr h a attr = Ok v /\ In v (v0 :: vs)).
  { intros a I. destruct (Iv a I) as [v Ea]. exists v. split; [exact Ea|].
    rewrite Mv. apply in_map_iff. exists a. rewrite Ea. split; [reflexivity | exact I]. }
  destruct (ObjectAnnotation.mapped_type h v0) as [t|] eqn:Mt.
  - destruct (mapM (ObjectAnnotation.to_dict h) (v0 :: vs)) as [dicts|e] eqn:Ed;
      [|discriminate H].
    cbn [bind] in H. unfold pa.array_typed, pa.array_of_array in H.
    destruct (mapM (pa.plain_to_cell h) dicts) as [cs|e] eqn:Ec; [|discriminate H].
    cbn [bind] in H. injection H as <-. simpl pa.cells. split.
    + rewrite (@mapM_length _ _ _ _ _ Ec), (@mapM_length _ _ _ _ _ Ed). exact Lv.
    + exists v0. split; [exact E0|]. intros a I.
      destruct (Vin a I) as (v & Ea & Iv'). exists v. split; [exact Ea|].
      unfold column_value_ok. rewrite Mt.
      destruct (@mapM_inv _ _ _ _ _ Ed v Iv') as [p Ep]. rewrite Ep.
      pose proof (@mapM_is_map _ _ _ (pa.PVal VNone) _ _ Ed) as Md.
      assert (Ip : In p dicts).
      { rewrite Md. apply in_map_iff. exists v. rewrite Ep. split; [reflexivity|exact Iv']. }
      destruct (@mapM_inv _ _ _ _ _ Ec p Ip) as [c Ecp]. rewrite Ecp. reflexivity.
  - unfold pa.array in H.
    destruct (mapM (pa.to_cell h) (v0 :: vs)) as [cs|e] eqn:Ec; [|discriminate H].
    cbn [bind] in H.
    destruct (pa.infer cs) as [cs'|e] eqn:Ei; [|discriminate H].
    cbn [bind] in H. injection H as <-. simpl pa.cells. split.
    + rewrite (@infer_length _ _ Ei), (@mapM_length _ _ _ _ _ Ec). exact Lv.
    + exists v0. split; [exact E0|]. intros a I.
      destruct (Vin a I) as (v & Ea & Iv'). exists v. split; [exact Ea|].
      unfold column_value_ok. rewrite Mt.
      destruct (@mapM_inv _ _ _ _ _ Ec v Iv') as [c Ecv]. rewrite Ecv. reflexivity.
Qed.

Lemma In_dict_set {A : Type} (d : Dict A) (k : string) (v : A) (kv : string * A) :
  In kv (dict_set d k v) -> kv = (k, v) \/ In kv d.
Proof.
  induction d as [|[k0 v0] d IH]; simpl.
  - intros [<-|[]]. left. reflexivity.
  - destruct (String.eqb k0 k) eqn:E.
    + apply String.eqb_eq in E. subst k0. simpl.
      intros [<-|I]; [left; reflexivity | right; right; exact I].
    + simpl. intros [<-|I]; [right; left; reflexivity|].
      destruct (IH I) as [->|I']; [left; reflexivity | right; right; exact I'].
Qed.

Lemma columns_inv (h : Heap) (l : list Value) (attributes : list string) :
  forall (result_dict cols : Dict pa.Array),
    ObjectAnnotation.columns h l attributes result_dict = Ok cols ->
    (forall attr, In attr attributes ->
       exists arr, ObjectAnnotation.column h l attr = Ok arr)
    /\ (forall kv, In kv cols ->
          In kv result_dict
          \/ (In (fst kv) attributes /\ ObjectAnnotation.column h l (fst kv) = Ok (snd kv))).
Proof.
  induction attributes as [|attr rest IH]; simpl; intros result_dict cols H.
  - injection H as <-. split; [intros attr []|]. intros kv I. left. exact I.
  - destruct (ObjectAnnotation.column h l attr) as [arr|e] eqn:Ea; [|discriminate H].
    cbn [bind] in H. destruct (IH _ _ H) as [I1 I2]. split.
    + intros a [<-|I]; [exists arr; exact Ea | exact (I1 a I)].
    + intros kv I. destruct (I2 kv I) as [Id|[Ir Ec]].
      * destruct (@In_dict_set _ _ _ _ _ Id) as [->|I']; [|left; exact I'].
        right. simpl. split; [left; reflexivity | exact Ea].
      * right. split; [right; exact Ir | exact Ec].
Qed.

(** X7. Batch encoding is all or nothing: when a column mapping is
    returned for a non-empty list, every annotation has every attribute of
    the first, and every value suits the way the column of its attribute
    is encoded, by [to_dict] where the first value is of a registered
    class and as it is otherwise. *)
Theorem batch_encoding_all_or_nothing
    (h : Heap) (first : Value) (rest : list Value) (cols : Dict pa.Array) :
  ObjectAnnotation.from_list_to_dict h (first :: rest) = Ok cols ->
  exists d,
    instance_dict h first = Ok d
    /\ forall attr, In attr (keys d) ->
         exists v0,
           getattr h first attr = Ok v0
           /\ forall a, In a (first :: rest) ->
                exists v, getattr h a attr = Ok v
                          /\ column_value_ok h (ObjectAnnotation.mapped_type h v0) v = true.
Proof.
  unfold ObjectAnnotation.from_list_to_dict. intros H.
  destruct (instance_dict h first) as [d|e]; [|discriminate H].
  cbn [bind] in H. exists d. split; [reflexivity|].
  intros attr I.
  destruct (@columns_inv h (first :: rest) (keys d) [] cols H) as [C _].
  destruct (C attr I) as [arr Ea].
  exact (proj2 (@column_inv h first rest attr arr Ea)).
Qed.

(** The columns that are returned, and the rows made of them. *)
Lemma columns_and_rows
    (h : Heap) (l : list Value) (cols : Dict pa.Array) :
  ObjectAnnotation.from_list_to_dict h l = Ok cols ->
  (forall kv, In kv cols -> List.length (pa.cells (snd kv)) = List.length l)
  /\ (cols <> [] ->
      ObjectAnnotation.from_list h l
      = Ok (map (pa.row cols) (seq 0 (List.length l)))).
Proof.
  intros H.
  assert (L : forall kv, In kv cols -> List.length (pa.cells (snd kv)) = List.length l).
  { destruct l as [|first rest].
    - injection H as <-. intros kv [].
    - unfold ObjectAnnotation.from_list_to_dict in H.
      destruct (instance_dict h first) as [d|e]; [|discriminate H].
      cbn [bind] in H.
      destruct (@columns_inv h (first :: rest) (keys d) [] cols H) as [_ C].
      intros kv I. destruct (C kv I) as [[]|[_ Ec]].
      exact (proj1 (@column_inv h first rest (fst kv) (snd kv) Ec)). }
  split; [exact L|].
  intros N. unfold ObjectAnnotation.from_list. rewrite H. cbn [bind].
  destruct cols as [|[k a] cols']; [contradiction N; reflexivity|].
  pose proof (L (k, a) (or_introl eq_refl)) as La. simpl in La.
  unfold pa.StructArray_from_arrays.
  replace (forallb _ cols') with true.
  - rewrite La. reflexivity.
  - symmetry. apply forallb_forall. intros kv I. apply Nat.eqb_eq.
    rewrite (L kv (or_intror I)). symmetry. exact La.
Qed.

(** X8. Every column that batch encoding returns has the length of the
    list, so that [from_list] never fails on columns of unequal length: a
    non-empty column mapping always makes the struct array, of one row per
    annotation. *)
Theorem batch_columns_have_the_length_of_the_list
    (h : Heap) (l : list Value) (cols : Dict pa.Array) :
  ObjectAnnotation.from_list_to_dict h l = Ok cols ->
  (forall kv, In kv cols -> List.length (pa.cells (snd kv)) = List.length l)
  /\ (cols <> [] ->
      ObjectAnnotation.from_list h l
      = Ok (map (pa.row cols) (seq 0 (List.length l)))).
Proof. exact (@columns_and_rows h l cols). Qed.

Lemma to_cell_scalar (h : Heap) (v : Value) :
  is_scalar v = true -> in_int64 v = true -> pa.to_cell h v = Ok (scalar_cell v).
Proof.
  destruct v; try reflexivity; [|discriminate].
  intros _ R. unfold in_int64 in R. unfold pa.to_cell. cbn [pa.to_cell_fuel].
  rewrite R. reflexivity.
Qed.

Lemma same_kind_compatible (v w : Value) :
  same_kind v w = true -> pa.compatible (scalar_cell v) (scalar_cell w) = true.
Proof. destruct v, w; simpl; intros H; try reflexivity; discriminate H. Qed.

Lemma one_kind_inv (vs : list Value) :
  one_kind vs = true ->
  (forall v, In v vs -> in_int64 v = true)
  /\ (forall v w, In v vs -> In w vs -> same_kind v w = true).
Proof.
  unfold one_kind. intros H. apply andb_prop in H. destruct H as [R K].
  rewrite forallb_forall in R. rewrite forallb_forall in K. split; [exact R|].
  intros v w Iv Iw. specialize (K v Iv). rewrite forallb_forall in K. exact (K w Iw).
Qed.

(** A column of scalars of one kind is of the type of that kind, and its
    cells are those of the values. *)
Lemma infer_scalars (vs : list Value) :
  one_kind vs = true -> pa.infer (map scalar_cell vs) = Ok (map scalar_cell vs).
Proof.
  intros H. destruct (one_kind_inv vs H) as [_ K]. unfold pa.infer.
  replace (forallb _ (map scalar_cell vs)) with true.
  - destruct (existsb pa.is_float (map scalar_cell vs)) eqn:E; [|reflexivity].
    apply existsb_exists in E. destruct E as (c & Ic & Fc).
    apply in_map_iff in Ic. destruct Ic as (w & <- & Iw).
    rewrite (@mapM_map _ _ pa.to_double (fun c => c) (map scalar_cell vs)).
    + rewrite map_id. reflexivity.
    + intros c Ic. apply in_map_iff in Ic. destruct Ic as (v & <- & Iv).
      specialize (K v w Iv Iw).
      destruct v; try reflexivity.
      destruct w; simpl in Fc; try discriminate Fc. discriminate K.
  - symmetry. apply forallb_forall. intros c Ic.
    apply in_map_iff in Ic. destruct Ic as (v & <- & Iv).
    apply forallb_forall. intros d Id.
    apply in_map_iff in Id. destruct Id as (w & <- & Iw).
    exact (same_kind_compatible v w (K v w Iv Iw)).
Qed.

Lemma mapped_type_scalar (h : Heap) (v : Value) :
  is_scalar v = true -> ObjectAnnotation.mapped_type h v = None.
Proof. destruct v; try reflexivity. discriminate. Qed.

Lemma scalar_annotation_attr (h : Heap) (a : Value) (name : string) :
  scalar_annotation h a -> In name field_names ->
  getattr h a name = Ok (value_of h a name)
  /\ is_scalar (value_of h a name) = true.
Proof.
  intros (d & Ed & Kd & Sd) I. unfold value_of, getattr. rewrite Ed. cbn [bind].
  rewrite <- Kd in I. destruct (@dict_get_In _ d name I) as [v G].
  rewrite G. split; [reflexivity | exact (Sd name v G)].
Qed.

Lemma column_of_scalars (h : Heap) (first : Value) (rest : list Value) (attr : string) :
  (forall a, In a (first :: rest) -> scalar_annotation h a) ->
  In attr field_names ->
  one_kind (map (fun a => value_of h a attr) (first :: rest)) = true ->
  ObjectAnnotation.column h (first :: rest) attr
  = Ok (pa.mkArray None
          (map (fun a => scalar_cell (value_of h a attr)) (first :: rest))).
Proof.
  intros S I K. unfold ObjectAnnotation.column.
  rewrite (@mapM_map _ _ (fun annotation => getattr h annotation attr)
             (fun a => value_of h a attr) (first :: rest)).
  2:{ intros a Ia. exact (proj1 (@scalar_annotation_attr h a attr (S a Ia) I)). }
  cbn [bind].
  change (map (fun a => value_of h a attr) (first :: rest))
    with (value_of h first attr :: map (fun a => value_of h a attr) rest) in K |- *.
  cbv iota.
  rewrite mapped_type_scalar
    by exact (proj2 (@scalar_annotation_attr h first attr (S first (or_introl eq_refl)) I)).
  unfold pa.array.
  rewrite (@mapM_map _ _ (pa.to_cell h) scalar_cell
             (value_of h first attr :: map (fun a => value_of h a attr) rest)).
  - cbn [bind]. rewrite (infer_scalars _ K). cbn [bind].
    cbn [map]. rewrite map_map. reflexivity.
  - intros v Iv. apply to_cell_scalar.
    + change (In v (map (fun a => value_of h a attr) (first :: rest))) in Iv.
      apply in_map_iff in Iv. destruct Iv as (a & <- & Ia).
      exact (proj2 (@scalar_annotation_attr h a attr (S a Ia) I)).
    + exact (proj1 (one_kind_inv _ K) v Iv).
Qed.

Lemma dict_set_new {A : Type} (d : Dict A) (k : string) (v : A) :
  ~ In k (keys d) -> dict_set d k v = d ++ [(k, v)].
Proof.
  unfold keys. induction d as [|[k0 v0] d IH]; simpl; intros N; [reflexivity|].
  destruct (String.eqb k0 k) eqn:E.
  - apply String.eqb_eq in E. tauto.
  - f_equal. apply IH. tauto.
Qed.

Lemma columns_build (h : Heap) (l : list Value) (f : string -> pa.Array)
    (attributes : list string) :
  forall result_dict : Dict pa.Array,
    NoDup (keys result_dict ++ attributes) ->
    (forall k, In k attributes -> ObjectAnnotation.column h l k = Ok (f k)) ->
    ObjectAnnotation.columns h l attributes result_dict
    = Ok (result_dict ++ map (fun k => (k, f k)) attributes).
Proof.
  induction attributes as [|attr rest IH]; intros result_dict ND H.
  - simpl. rewrite app_nil_r. reflexivity.
  - simpl. rewrite (H attr (or_introl eq_refl)). cbn [bind].
    assert (Nin : ~ In attr (keys result_dict)).
    { intros I. apply NoDup_remove_2 in ND. apply ND. apply in_or_app. left. exact I. }
    rewrite (@dict_set_new _ result_dict attr (f attr) Nin).
    rewrite IH.
    + rewrite <- app_assoc. reflexivity.
    + unfold keys in *. rewrite map_app, <- app_assoc. exact ND.
    + intros k I. apply H. right. exact I.
Qed.

Lemma NoDup_field_names : NoDup field_names.
Proof. unfold field_names. repeat constructor; simpl; intuition discriminate. Qed.

Lemma batch_of_scalars (h : Heap) (first : Value) (rest : list Value) :
  (forall a, In a (first :: rest) -> scalar_annotation h a) ->
  (forall name, In name field_names ->
     one_kind (map (fun a => value_of h a name) (first :: rest)) = true) ->
  ObjectAnnotation.from_list_to_dict h (first :: rest)
  = Ok (map (fun k => (k, scalar_column h (first :: rest) k)) field_names).
Proof.
  intros S K. unfold ObjectAnnotation.from_list_to_dict.
  destruct (S first (or_introl eq_refl)) as (d & Ed & Kd & _).
  rewrite Ed. cbn [bind]. rewrite Kd.
  rewrite (@columns_build h (first :: rest) (scalar_column h (first :: rest))
             field_names []).
  - reflexivity.
  - exact NoDup_field_names.
  - intros k I. exact (@column_of_scalars h first rest k S I (K k I)).
Qed.

Lemma nth_map_cell {A : Type} (g : A -> pa.Cell) (l : list A) (i : nat) (a : A) :
  nth_error l i = Some a -> nth i (map g l) pa.CNull = g a.
Proof.
  revert i. induction l as [|x l IH]; intros [|i]; simpl; try discriminate.
  - intros H. injection H as <-. reflexivity.
  - apply IH.
Qed.

Lemma row_of_scalars (h : Heap) (l : list Value) (i : nat) (a : Value) :
  nth_error l i = Some a ->
  pa.row (map (fun k => (k, scalar_column h l k)) field_names) i = scalar_row h a.
Proof.
  intros H. unfold pa.row, scalar_row. rewrite map_map. f_equal.
  apply map_ext. intros k. simpl. f_equal.
  exact (@nth_map_cell _ (fun a0 => scalar_cell (value_of h a0 k)) l i a H).
Qed.

Lemma map_seq_nth {A B : Type} (F : nat -> B) (G : A -> B) (l : list A) :
  forall s,
    (forall i a, nth_error l i = Some a -> F (s + i)%nat = G a) ->
    map F (seq s (List.length l)) = map G l.
Proof.
  induction l as [|x l IH]; intros s H; [reflexivity|].
  simpl. f_equal.
  - rewrite <- (H 0%nat x eq_refl). f_equal. symmetry. apply Nat.add_0_r.
  - apply IH. intros i a Hi. rewrite <- (H (S i) a Hi). f_equal.
    symmetry. apply Nat.add_succ_r.
Qed.

(** X9. Encoding of annotations of scalars.  For a non-empty list of
    annotations that have the fifteen attributes of the constructor with
    scalars in all of them, where the values of each attribute are of one
    kind apart from [None] and the integers are in the range of [int64]:
    batch encoding returns the fifteen columns in the order of the
    attributes, the cell of annotation [i] in the column of an attribute
    holding the value of that attribute, null for [None]; and [from_list]
    returns one row per annotation, the struct of its fifteen values. *)
Theorem scalar_annotations_encoding
    (h : Heap) (first : Value) (rest : list Value) :
  (forall a, In a (first :: rest) -> scalar_annotation h a) ->
  (forall name, In name field_names ->
     one_kind (map (fun a => value_of h a name) (first :: rest)) = true) ->
  ObjectAnnotation.from_list_to_dict h (first :: rest)
  = Ok (map (fun k => (k, scalar_column h (first :: rest) k)) field_names)
  /\ ObjectAnnotation.from_list h (first :: rest)
     = Ok (map (scalar_row h) (first :: rest)).
Proof.
  intros S K.
  pose proof (@batch_of_scalars h first rest S K) as Ec.
  split; [exact Ec|].
  destruct (@columns_and_rows h (first :: rest) _ Ec) as [_ Er].
  rewrite (Er ltac:(discriminate)). f_equal.
  apply map_seq_nth. intros i a Hi.
  exact (@row_of_scalars h (first :: rest) i a Hi).
Qed.

End BatchEncodingConverse.

(** ** ObjectAnnotation: the plain-structure export *)

Section PlainExport.

Import Py.

Lemma to_dict_fuel_no_class (fuel : nat) (h : Heap) (v : Value) :
  class_of h v = None -> exists e, ObjectAnnotation.to_dict_fuel fuel h v = Raise e.
Proof.
  unfold class_of. intros H. destruct fuel as [|fuel]; simpl.
  - exists RecursionError. reflexivity.
  - destruct (deref h v) as [[items|items|c d]|]; try discriminate H;
      exists AttributeError; reflexivity.
Qed.

Lemma to_dict_fuel_leaf (fuel : nat) (h : Heap) (v : Value) :
  is_leaf_object h v -> exists p, ObjectAnnotation.to_dict_fuel (S fuel) h v = Ok p.
Proof.
  unfold is_leaf_object, class_of. intros H. simpl.
  destruct (deref h v) as [[items|items|c d]|];
    try (destruct H as [H|[H|H]]; discriminate H).
  destruct c; try (destruct H as [H|[H|H]]; discriminate H); eexists; reflexivity.
Qed.

Ltac export_step H :=
  match type of H with
  | context [ObjectAnnotation.attr ?d ?name] =>
      let v := fresh "v" in
      let E := fresh "E" in
      destruct (ObjectAnnotation.attr d name) as [v|] eqn:E;
      [ cbn [bind] in H | discriminate H ]
  end.

Ltac export_nested H :=
  match type of H with
  | context [ObjectAnnotation.to_dict_fuel ?f ?h ?v] =>
      let p := fresh "p" in
      let E := fresh "T" in
      destruct (ObjectAnnotation.to_dict_fuel f h v) as [p|] eqn:E;
      [ cbn [bind] in H | discriminate H ]
  end.

Lemma to_dict_inv (h : Heap) (o : Value) (d : Dict Value) (p : pa.Plain) :
  deref h o = Some (OInst ObjectAnnotation d) ->
  ObjectAnnotation.to_dict h o = Ok p ->
  forall name v, In name nested_fields -> dict_get d name = Some v ->
    exists q, ObjectAnnotation.to_dict_fuel (List.length h) h v = Ok q.
Proof.
  intros Hd H. unfold ObjectAnnotation.to_dict in H. simpl in H. rewrite Hd in H.
  export_step H. export_step H. export_step H. export_nested H.
  export_step H. export_step H. export_step H. export_step H. export_step H.
  export_step H. export_nested H. export_step H. export_step H.
  export_step H. export_nested H.
  intros name w I G. unfold ObjectAnnotation.attr in *. simpl in I.
  destruct I as [<-|[<-|[<-|[]]]]; rewrite G in *;
    match goal with
    | E : Ok w = Ok ?x |- _ => injection E as <-; eexists; eassumption
    end.
Qed.

Lemma to_dict_fuel_annotation (fuel : nat) (h : Heap) (o : Value) (d : Dict Value) :
  deref h o = Some (OInst ObjectAnnotation d) ->
  ObjectAnnotation.to_dict_fuel (S fuel) h o
  = (v_id <- ObjectAnnotation.attr d "id" ;;
     v_view_id <- ObjectAnnotation.attr d "view_id" ;;
     o_bbox <- ObjectAnnotation.attr d "bbox" ;;
     v_bbox <- ObjectAnnotation.to_dict_fuel fuel h o_bbox ;;
     v_bbox_source <- ObjectAnnotation.attr d "bbox_source" ;;
     v_bbox_confidence <- ObjectAnnotation.attr d "bbox_confidence" ;;
     v_is_group_of <- ObjectAnnotation.attr d "is_group_of" ;;
     v_is_difficult <- ObjectAnnotation.attr d "is_difficult" ;;
     v_is_truncated <- ObjectAnnotation.attr d "is_truncated" ;;
     o_mask <- ObjectAnnotation.attr d "mask" ;;
     v_mask <- ObjectAnnotation.to_dict_fuel fuel h o_mask ;;
     v_mask_source <- ObjectAnnotation.attr d "mask_source" ;;
     v_area <- ObjectAnnotation.attr d "area" ;;
     o_pose <- ObjectAnnotation.attr d "pose" ;;
     v_pose <- ObjectAnnotation.to_dict_fuel fuel h o_pose ;;
     v_category_id <- ObjectAnnotation.attr d "category_id" ;;
     v_category_name <- ObjectAnnotation.attr d "category_name" ;;
     v_identity <- ObjectAnnotation.attr d "identity" ;;
     Ok (pa.PDict
           [ ("id", pa.PVal v_id);
             ("view_id", pa.PVal v_view_id);
             ("bbox", v_bbox);
             ("bbox_source", pa.PVal v_bbox_source);
             ("bbox_confidence", pa.PVal v_bbox_confidence);
             ("is_group_of", pa.PVal v_is_group_of);
             ("is_difficult", pa.PVal v_is_difficult);
             ("is_truncated", pa.PVal v_is_truncated);
             ("mask", v_mask);
             ("mask_source", pa.PVal v_mask_source);
             ("area", pa.PVal v_area);
             ("pose", v_pose);
             ("category_id", pa.PVal v_category_id);
             ("category_name", pa.PVal v_category_name);
             ("identity", pa.PVal v_identity) ])).
Proof. intros H. cbn [ObjectAnnotation.to_dict_fuel]. rewrite H. reflexivity. Qed.

Lemma to_dict_build (h : Heap) (o : Value) (d : Dict Value) :
  deref h o = Some (OInst ObjectAnnotation d) ->
  (forall name, In name field_names -> dict_get d name <> None) ->
  (forall name v, In name nested_fields -> dict_get d name = Some v ->
     is_leaf_object h v) ->
  exists items,
    ObjectAnnotation.to_dict h o = Ok (pa.PDict items) /\ keys items = field_names.
Proof.
  intros Hd Hk Hn.
  assert (Lh : exists n, List.length h = S n).
  { destruct h as [|x h']; [|exists (List.length h'); reflexivity].
    destruct o; simpl in Hd; try discriminate. destruct l; discriminate. }
  destruct Lh as [n Ln].
  assert (A : forall name, In name field_names ->
                exists v, ObjectAnnotation.attr d name = Ok v
                          /\ dict_get d name = Some v).
  { intros name I. specialize (Hk name I). unfold ObjectAnnotation.attr.
    destruct (dict_get d name) as [v|]; [exists v; split; reflexivity | congruence]. }
  assert (N : forall name, In name nested_fields ->
                exists v p, ObjectAnnotation.attr d name = Ok v
                            /\ ObjectAnnotation.to_dict_fuel (S n) h v = Ok p).
  { intros name I.
    destruct (A name) as (v & Ev & Gv).
    { simpl in I. simpl. intuition. }
    destruct (@to_dict_fuel_leaf n h v (Hn name v I Gv)) as [p Ep].
    exists v, p. split; assumption. }
  unfold ObjectAnnotation.to_dict. rewrite Ln.
  rewrite (@to_dict_fuel_annotation (S n) h o d Hd).
  destruct (N "bbox") as (vb & pb & Eb & Tb); [simpl; tauto|].
  destruct (N "mask") as (vm & pm & Em & Tm); [simpl; tauto|].
  destruct (N "pose") as (vp & pp & Ep & Tp); [simpl; tauto|].
  rewrite Eb, Em, Ep.
  repeat match goal with
  | |- context [ObjectAnnotation.attr d ?name] =>
      let v := fresh "v" in
      let E := fresh "E" in
      destruct (A name) as (v & E & _); [simpl; tauto|]; rewrite E; clear E
  end.
  cbn [bind]. rewrite Tb. cbn [bind]. rewrite Tm. cbn [bind]. rewrite Tp. cbn [bind].
  eexists. split; reflexivity.
Qed.

(** X10. [ObjectAnnotation.to_dict] calls [to_dict] on [bbox], [mask] and
    [pose] without a test for [None]: it returns nothing when one of them
    is not an object of a class, and returns a dict with the fifteen field
    names when the attributes are there and the three are BBox, Pose or
    CompressedRLE objects.  An annotation built without [mask] has [None]
    there, so its [to_dict] always raises. *)
Theorem to_dict_needs_nested_objects
    (h h1 : Heap) (o : Value) (d : Dict Value)
    (D : ObjectAnnotation.Defaults) (a : ObjectAnnotation.Args) :
  (deref h o = Some (OInst ObjectAnnotation d) ->
   forall name v, In name nested_fields -> dict_get d name = Some v ->
     class_of h v = None -> forall p, ObjectAnnotation.to_dict h o <> Ok p)
  /\ (deref h o = Some (OInst ObjectAnnotation d) ->
      (forall name, In name field_names -> dict_get d name <> None) ->
      (forall name v, In name nested_fields -> dict_get d name = Some v ->
         is_leaf_object h v) ->
      exists items,
        ObjectAnnotation.to_dict h o = Ok (pa.PDict items)
        /\ keys items = field_names)
  /\ (ObjectAnnotation.mask a = None ->
      forall p,
        ObjectAnnotation.to_dict (snd (ObjectAnnotation.new D a h1))
          (fst (ObjectAnnotation.new D a h1)) <> Ok p).
Proof.
  assert (P1 : forall h0 o0 d0,
            deref h0 o0 = Some (OInst ObjectAnnotation d0) ->
            forall name v, In name nested_fields -> dict_get d0 name = Some v ->
              class_of h0 v = None ->
              forall p, ObjectAnnotation.to_dict h0 o0 <> Ok p).
  { intros h0 o0 d0 Hd name v I G C p E.
    destruct (@to_dict_inv h0 o0 d0 p Hd E name v I G) as [q Eq].
    destruct (@to_dict_fuel_no_class (List.length h0) h0 v C) as [e Ee].
    congruence. }
  split; [exact (P1 h o d)|]. split; [exact (@to_dict_build h o d)|].
  intros M p.
  apply (P1 _ _ (ObjectAnnotation.__init__ D a) (deref_alloc _ h1) "mask" VNone).
  - simpl. tauto.
  - simpl. rewrite M. reflexivity.
  - reflexivity.
Qed.

End PlainExport.

(** ** Instances *)

Lemma batch_encoding_all_or_nothing_witness :
  exists d,
    Py.instance_dict example_heap (Py.VRef 6%nat) = Ok d
    /\ forall attr, In attr (Py.keys d) ->
         exists v0,
           Py.getattr example_heap (Py.VRef 6%nat) attr = Ok v0
           /\ forall a, In a [Py.VRef 6%nat; Py.VRef 8%nat] ->
                exists v,
                  Py.getattr example_heap a attr = Ok v
                  /\ column_value_ok example_heap
                       (ObjectAnnotation.mapped_type example_heap v0) v = true.
Proof.
  destruct (ObjectAnnotation.from_list_to_dict example_heap
              [Py.VRef 6%nat; Py.VRef 8%nat]) as [cols|e] eqn:E;
    [|vm_compute in E; discriminate E].
  exact (@batch_encoding_all_or_nothing _ _ _ _ E).
Defined.

Lemma batch_columns_have_the_length_of_the_list_witness :
  exists cols,
    ObjectAnnotation.from_list_to_dict example_heap [Py.VRef 6%nat; Py.VRef 8%nat]
      = Ok cols
    /\ forall kv, In kv cols -> List.length (pa.cells (snd kv)) = 2%nat.
Proof.
  destruct (ObjectAnnotation.from_list_to_dict example_heap
              [Py.VRef 6%nat; Py.VRef 8%nat]) as [cols|e] eqn:E;
    [|vm_compute in E; discriminate E].
  exists cols. split; [reflexivity|].
  exact (proj1 (@batch_columns_have_the_length_of_the_list _ _ _ E)).
Defined.

Lemma scalar_annotations_encoding_witness :
  ObjectAnnotation.from_list_to_dict scalar_heap [Py.VRef 4%nat; Py.VRef 5%nat]
  = Ok (map (fun k => (k, scalar_column scalar_heap [Py.VRef 4%nat; Py.VRef 5%nat] k))
          field_names)
  /\ ObjectAnnotation.from_list scalar_heap [Py.VRef 4%nat; Py.VRef 5%nat]
     = Ok (map (scalar_row scalar_heap) [Py.VRef 4%nat; Py.VRef 5%nat]).
Proof.
  apply scalar_annotations_encoding.
  - intros a [<-|[<-|[]]].
    + exists (ObjectAnnotation.__init__ (fst (ObjectAnnotation.def__init__ []))
                (scalar_args "a" 1)).
      split; [reflexivity|]. split; [reflexivity|].
      intros name v G. cbn in G.
      repeat match type of G with
      | (if ?b then _ else _) = _ =>
          destruct b; [injection G as <-; reflexivity|]
      end.
      discriminate G.
    + exists (ObjectAnnotation.__init__ (fst (ObjectAnnotation.def__init__ []))
                (scalar_args "b" 2)).
      split; [reflexivity|]. split; [reflexivity|].
      intros name v G. cbn in G.
      repeat match type of G with
      | (if ?b then _ else _) = _ =>
          destruct b; [injection G as <-; reflexivity|]
      end.
      discriminate G.
  - intros name I. simpl in I.
    repeat (destruct I as [<-|I]; [vm_compute; reflexivity|]). contradiction.
Defined.

Lemma to_dict_needs_nested_objects_witness :
  (exists items,
     ObjectAnnotation.to_dict export_heap (Py.VRef 7%nat) = Ok (pa.PDict items)
     /\ Py.keys items = field_names)
  /\ forall p,
       ObjectAnnotation.to_dict
         (snd (ObjectAnnotation.new (fst (ObjectAnnotation.def__init__ []))
                 (ObjectAnnotation.only_id (Py.VStr "a")) []))
         (fst (ObjectAnnotation.new (fst (ObjectAnnotation.def__init__ []))
                 (ObjectAnnotation.only_id (Py.VStr "a")) [])) <> Ok p.
Proof.
  destruct (Py.deref export_heap (Py.VRef 7%nat)) as [[items|items|c d]|] eqn:E;
    try (vm_compute in E; discriminate E).
  destruct c; try (vm_compute in E; discriminate E).
  destruct (@to_dict_needs_nested_objects export_heap [] (Py.VRef 7%nat) d
              (fst (ObjectAnnotation.def__init__ []))
              (ObjectAnnotation.only_id (Py.VStr "a"))) as (_ & P & N).
  vm_compute in E. injection E as <-.
  split.
  - apply P.
    + reflexivity.
    + intros name I. simpl in I.
      repeat (destruct I as [<-|I]; [discriminate|]). contradiction.
    + intros name v I G. simpl in I. unfold is_leaf_object.
      destruct I as [<-|[<-|[<-|[]]]]; vm_compute in G; injection G as <-;
        vm_compute; tauto.
  - apply N. reflexivity.
Defined.
